(** * Task-Management-Backend: a shallow embedding of [index.js] and
    [Models/UserModel.js], and the properties of its authentication guard,
    registration route and per-user task routes.

    Conventions of the embedding.
    - A MongoDB collection is a finite map from [_id] to document.
    - Request inputs ([req.body], [req.query], [req.params], the
      [Authorization] header) are the strings that arrive on the wire; a
      field of a JS object that is [undefined] is [None].  Body and query
      values are JSON strings; a body whose fields hold numbers, arrays,
      objects or [null], and a query parameter that is repeated, are
      outside the embedding.
    - Strings are sequences of ASCII characters.
    - The embedding starts where a route of [index.js] has been matched:
      [cors()], the body parser [express.json()] (which answers by itself
      when a body is too large or is not JSON) and Express's routing are not
      part of it.  [handle] is the guard [authenticateToken] followed by the
      route's handler, and nothing said of [handle] is said of those layers.
    - A handler is a function from the database to a response and the next
      database; an exception thrown inside [try] is a value of [Exn] and the
      [catch] clause maps it to the handler's 500 response.
    - [jsonwebtoken], [bcryptjs], the JS [Date] parser and the generator of
      ObjectIds are external; they are the fields of a [Platform] record,
      one record for each request that is served.
    - The [_id] of a new document is the ObjectId the generator draws when
      the document is constructed.  The insert refuses an [_id] that is
      already in the collection, as MongoDB's index on [_id] does; that
      the generator never draws such an id is an assumption on the
      generator, and it is written out where a property needs it.
    - Mongoose is taken with the semantics of its versions 6 and later:
      [undefined] keys of an update are dropped, schema setters run on query
      filters, update validators run before the query is sent. *)

From Stdlib Require Import Ascii String ZArith NArith.
From stdpp Require Import gmap strings list fin_maps sorting.

Local Open Scope string_scope.
Local Open Scope Z_scope.

(** ** JavaScript strings *)

Module JS.

(** Truthiness of a value that is either [undefined] or a string:
    [truthy v] is [Some s] when [v] is the non-empty string [s], and [None]
    when [v] is [undefined] or the empty string.  [if (!v) A else B] is
    [match truthy v with None => A | Some s => B end]. *)
Definition truthy (v : option string) : option string :=
  match v with
  | Some s => if String.eqb s "" then None else Some s
  | None => None
  end.

(** [a || b] with a string default [b]. *)
Definition or_else (a : option string) (b : string) : string :=
  default b (truthy a).

Definition is_space (c : ascii) : bool := Ascii.eqb c " "%char.

(** [s.split(' ')]: cut at every single space character; consecutive
    spaces give empty segments and the empty string gives one empty
    segment. *)
Fixpoint split_space (s : string) : list string :=
  match s with
  | EmptyString => [ "" ]
  | String c s' =>
      if is_space c then "" :: split_space s'
      else match split_space s' with
           | w :: ws => String c w :: ws
           | [] => [ String c "" ]
           end
  end.

(** No character of [s] is a space. *)
Fixpoint spaceless (s : string) : bool :=
  match s with
  | EmptyString => true
  | String c s' => negb (is_space c) && spaceless s'
  end.

(** White space removed by [String.prototype.trim] (ASCII part). *)
Definition is_white (c : ascii) : bool :=
  let n := nat_of_ascii c in
  (Nat.eqb n 32 || (Nat.leb 9 n && Nat.leb n 13))%bool.

Fixpoint trim_start (s : string) : string :=
  match s with
  | EmptyString => ""
  | String c s' => if is_white c then trim_start s' else s
  end.

(** [trim_end] keeps a character when it is not white space or when
    something is left after it. *)
Fixpoint trim_end (s : string) : string :=
  match s with
  | EmptyString => ""
  | String c s' =>
      match trim_end s' with
      | EmptyString => if is_white c then "" else String c ""
      | r => String c r
      end
  end.

Definition trim (s : string) : string := trim_end (trim_start s).

Definition lower_char (c : ascii) : ascii :=
  let n := nat_of_ascii c in
  if (Nat.leb 65 n && Nat.leb n 90)%bool then ascii_of_nat (n + 32) else c.

Fixpoint toLowerCase (s : string) : string :=
  match s with
  | EmptyString => ""
  | String c s' => String (lower_char c) (toLowerCase s')
  end.

End JS.

(** ** ObjectIds *)

(** A 12-byte ObjectId is the number its 24 hexadecimal digits denote. *)
Abbreviation ObjectId := N.

Module ObjectIds.

Definition hex_digit (c : ascii) : option N :=
  let n := N_of_ascii c in
  if ((48 <=? n) && (n <=? 57))%N then Some (n - 48)%N
  else if ((97 <=? n) && (n <=? 102))%N then Some (n - 87)%N
  else if ((65 <=? n) && (n <=? 70))%N then Some (n - 55)%N
  else None.

Fixpoint hex_value (acc : N) (s : string) : option N :=
  match s with
  | EmptyString => Some acc
  | String c s' =>
      match hex_digit c with
      | Some d => hex_value (16 * acc + d)%N s'
      | None => None
      end
  end.

(** Mongoose's cast of a string to an ObjectId: a string of exactly 24
    hexadecimal digits; anything else raises a [CastError].  (Old drivers
    also take any string of 12 characters; such ids are left out.) *)
Definition cast (s : string) : option ObjectId :=
  if Nat.eqb (String.length s) 24 then hex_value 0%N s else None.

End ObjectIds.

(** ** Data model *)

(** A document of the [users] collection ([Models/UserModel.js]).  The two
    timestamps ([timestamps: true]) are [undefined] until the first save. *)
Record User := mkUser {
  user_id : ObjectId;
  user_name : string;
  user_email : string;
  user_password : string;
  user_createdAt : option Z;
  user_updatedAt : option Z;
}.

(** A document of the [tasks] collection.  [task_dueDate] and
    [task_reminderDate] are time values in milliseconds. *)
Record Task := mkTask {
  task_id : ObjectId;
  task_title : string;
  task_description : string;
  task_status : string;
  task_priority : string;
  task_dueDate : Z;
  task_reminderDate : option Z;
  task_userId : ObjectId;
}.

Record Db := mkDb {
  Users : gmap N User;
  Tasks : gmap N Task;
}.

(** What a call into Mongoose or [jsonwebtoken] can throw. *)
Inductive Exn :=
  | ValidationError
  | CastError
  | DuplicateKeyError.

Inductive Result (A : Type) :=
  | Ok (a : A)
  | Throw (e : Exn).
Arguments Ok {A} a.
Arguments Throw {A} e.

(** The decoded payload of a token: [{ id, iat, exp }]. *)
Record Payload := mkPayload {
  payload_id : ObjectId;
  payload_iat : Z;
  payload_exp : Z;
}.

(** The outcome of [jwt.verify(token, secret)]: the payload, or one of the
    errors the library throws. *)
Inductive JwtResult :=
  | Verified (verified : Payload)
  | TokenExpiredError
  | JsonWebTokenError
  | NotBeforeError.

(** The external libraries at the moment a request is served. *)
Record Platform := mkPlatform {
  (** [jwt.verify(token, process.env.JWT_SECRET)] *)
  jwt_verify : string -> JwtResult;
  (** [jwt.sign({ id }, process.env.JWT_SECRET, { expiresIn: '24h' })] *)
  jwt_sign : ObjectId -> string;
  (** [bcrypt.hash(password, 10)], with the salt it draws *)
  bcrypt_hash : string -> string;
  (** [bcrypt.compare(candidate, hash)] *)
  bcrypt_compare : string -> string -> bool;
  (** [Date.now()] *)
  Date_now : Z;
  (** [new Date(s).valueOf()] for a string [s]; [None] is [Invalid Date]. *)
  Date_parse : string -> option Z;
  (** Mongoose's cast of a raw string to a [Date] path in an update; [None]
      when the cast fails or gives [null]. *)
  SchemaDate_cast : string -> option Z;
  (** [new ObjectId()]: the [_id] that a document constructed while this
      request is served receives. *)
  ObjectId_new : ObjectId;
}.

(** A response: [res.status(code).json(body)]. *)
Inductive Json :=
  | JError (error : string)
  | JMessage (message : string)
  | JRegistered (message : string) (uid : ObjectId) (name email : string)
      (token : string)
  | JLogin (message : string) (token : string)
  | JTask (task : Task)
  | JTasks (tasks : list Task)
  | JReminder (message : string) (task : Task).

Record Response := mkResponse {
  res_status : Z;
  res_json : Json;
}.

Global Instance Task_eq_dec : EqDecision Task.
Proof. solve_decision. Defined.
Global Instance User_eq_dec : EqDecision User.
Proof. solve_decision. Defined.

(** ** The user model ([Models/UserModel.js]) *)

Module UserModel.

(** The setters of the [name] path: [trim: true]. *)
Definition set_name (v : string) : string := JS.trim v.

(** The setters of the [email] path: [trim: true, lowercase: true]. *)
Definition set_email (v : string) : string := JS.trim (JS.toLowerCase v).

(** [new User({ name, email, password })]: the setters run on assignment and
    the document receives the ObjectId that is drawn for it. *)
Definition new (P : Platform) (name email password : string) : User :=
  {| user_id := ObjectId_new P;
     user_name := set_name name;
     user_email := set_email email;
     user_password := password;
     user_createdAt := None;
     user_updatedAt := None |}.

(** The validators of the schema: [required] on the three paths (a required
    string must not be empty) and [minlength: 6] on [password]. *)
Definition validate (u : User) : bool :=
  negb (String.eqb (user_name u) "")
  && negb (String.eqb (user_email u) "")
  && negb (String.eqb (user_password u) "")
  && (6 <=? String.length (user_password u))%nat.

(** [User.findOne({ email })]: the filter is cast with the path's setters,
    then the collection is searched. *)
Definition findOne_email (email : string) (db : Db) : option User :=
  let email := set_email email in
  snd <$> head (map_to_list (filter (λ kv, user_email kv.2 = email) (Users db))).

(** [User.findById(id)] *)
Definition findById (i : ObjectId) (db : Db) : option User := Users db !! i.

(** [UserSchema.pre('save', ...)] on a new document: [isModified('password')]
    holds, so the password is replaced by its hash. *)
Definition pre_save (P : Platform) (u : User) : User :=
  {| user_id := user_id u;
     user_name := user_name u;
     user_email := user_email u;
     user_password := bcrypt_hash P (user_password u);
     user_createdAt := user_createdAt u;
     user_updatedAt := user_updatedAt u |}.

(** [timestamps: true] on the first save. *)
Definition timestamps (P : Platform) (u : User) : User :=
  {| user_id := user_id u;
     user_name := user_name u;
     user_email := user_email u;
     user_password := user_password u;
     user_createdAt := Some (Date_now P);
     user_updatedAt := Some (Date_now P) |}.

(** The insert, under the unique indexes on [_id] and on [email]
    ([unique: true]). *)
Definition insert (u : User) (db : Db) : Result Db :=
  match Users db !! user_id u with
  | Some _ => Throw DuplicateKeyError
  | None =>
      if decide (filter (λ kv, user_email kv.2 = user_email u) (Users db) = ∅)
      then Ok {| Users := <[user_id u := u]> (Users db); Tasks := Tasks db |}
      else Throw DuplicateKeyError
  end.

(** [newUser.save()]: validation runs first, then the pre-save hook, then
    the insert.  The stored document is returned with the database. *)
Definition save (P : Platform) (u : User) (db : Db) : Result (User * Db) :=
  if validate u then
    let u := timestamps P (pre_save P u) in
    match insert u db with
    | Ok db' => Ok (u, db')
    | Throw e => Throw e
    end
  else Throw ValidationError.

(** [user.comparePassword(candidate)] *)
Definition comparePassword (P : Platform) (u : User) (candidate : string) : bool :=
  bcrypt_compare P candidate (user_password u).

End UserModel.

(** ** The task model *)

Module TaskModel.

(** Modelled from the spec: [Models/TaskModel.js] is not among the sources.
    The schema below follows the Task data model of the specification:
    [title] and [description] are non-empty strings, [status] is one of
    pending, in-progress, completed, [priority] is one of low, medium, high,
    [dueDate] is a required date, [reminderDate] an optional date and
    [userId] the owner. *)
Definition statuses : list string := [ "pending"; "in-progress"; "completed" ].
Definition priorities : list string := [ "low"; "medium"; "high" ].

Definition valid_title (v : string) : bool := negb (String.eqb v "").
Definition valid_description (v : string) : bool := negb (String.eqb v "").
Definition valid_status (v : string) : bool := bool_decide (v ∈ statuses).
Definition valid_priority (v : string) : bool := bool_decide (v ∈ priorities).

(** [new Task({ ... }).save()]: the document receives the ObjectId that is
    drawn for it, every path is validated (a [dueDate] that is
    [Invalid Date] does not cast), and the document is inserted under the
    unique index on [_id].  The saved document is returned with the
    database. *)
Definition save_new (P : Platform) (title description status priority : string)
    (dueDate : option Z) (userId : ObjectId) (db : Db) : Result (Task * Db) :=
  match dueDate with
  | None => Throw ValidationError
  | Some due =>
      if valid_title title && valid_description description
         && valid_status status && valid_priority priority
      then
        let task :=
          {| task_id := ObjectId_new P;
             task_title := title;
             task_description := description;
             task_status := status;
             task_priority := priority;
             task_dueDate := due;
             task_reminderDate := None;
             task_userId := userId |} in
        match Tasks db !! task_id task with
        | Some _ => Throw DuplicateKeyError
        | None =>
            Ok (task, {| Users := Users db;
                         Tasks := <[task_id task := task]> (Tasks db) |})
        end
      else Throw ValidationError
  end.

(** A query filter [{ userId, status?, priority? }]. *)
Record Query := mkQuery {
  q_userId : ObjectId;
  q_status : option string;
  q_priority : option string;
}.

Definition matches (q : Query) (t : Task) : bool :=
  bool_decide (task_userId t = q_userId q)
  && match q_status q with
     | Some v => bool_decide (task_status t = v)
     | None => true
     end
  && match q_priority q with
     | Some v => bool_decide (task_priority t = v)
     | None => true
     end.

(** [Task.find(query)] *)
Definition find (q : Query) (db : Db) : list Task :=
  snd <$> map_to_list (filter (λ kv, matches q kv.2 = true) (Tasks db)).

(** The order of [.sort({ dueDate: dir })]. *)
Definition due_le (a b : Task) : Prop := task_dueDate a ≤ task_dueDate b.
Definition due_ge (a b : Task) : Prop := task_dueDate b ≤ task_dueDate a.

Global Instance due_le_dec a b : Decision (due_le a b).
Proof. unfold due_le. apply _. Defined.
Global Instance due_ge_dec a b : Decision (due_ge a b).
Proof. unfold due_ge. apply _. Defined.
Global Instance due_le_total : Total due_le.
Proof. intros a b. unfold due_le. lia. Qed.
Global Instance due_ge_total : Total due_ge.
Proof. intros a b. unfold due_ge. lia. Qed.
Global Instance due_le_trans : Transitive due_le.
Proof. intros a b c. unfold due_le. lia. Qed.
Global Instance due_ge_trans : Transitive due_ge.
Proof. intros a b c. unfold due_ge. lia. Qed.

(** [.sort({ dueDate: dir })] with [dir] being [1] or [-1]. *)
Definition sort_dueDate (dir : Z) (l : list Task) : list Task :=
  if decide (dir = -1) then merge_sort due_ge l else merge_sort due_le l.

(** [Task.findOne({ _id, userId })]: the [_id] of the filter is cast to an
    ObjectId, which throws for a malformed string. *)
Definition findOne (_id : string) (userId : ObjectId) (db : Db)
    : Result (option Task) :=
  match ObjectIds.cast _id with
  | None => Throw CastError
  | Some i =>
      match Tasks db !! i with
      | Some t => if decide (task_userId t = userId) then Ok (Some t) else Ok None
      | None => Ok None
      end
  end.

(** The update document [{ title, description, status, priority, dueDate }]
    as the handler builds it; a key whose value is [undefined] is [None]. *)
Record Update := mkUpdate {
  u_title : option string;
  u_description : option string;
  u_status : option string;
  u_priority : option string;
  u_dueDate : option string;
}.

(** The update after casting: [undefined] keys are dropped, so [None] is a
    path the [$set] does not mention. *)
Record CastUpdate := mkCastUpdate {
  set_title : option string;
  set_description : option string;
  set_status : option string;
  set_priority : option string;
  set_dueDate : option Z;
}.

Definition castUpdate (P : Platform) (u : Update) : Result CastUpdate :=
  match u_dueDate u with
  | Some v =>
      match SchemaDate_cast P v with
      | Some d => Ok (mkCastUpdate (u_title u) (u_description u) (u_status u)
                        (u_priority u) (Some d))
      | None => Throw CastError
      end
  | None => Ok (mkCastUpdate (u_title u) (u_description u) (u_status u)
                  (u_priority u) None)
  end.

(** [runValidators: true]: the validators of the paths the update sets. *)
Definition validateUpdate (u : CastUpdate) : bool :=
  from_option valid_title true (set_title u)
  && from_option valid_description true (set_description u)
  && from_option valid_status true (set_status u)
  && from_option valid_priority true (set_priority u).

(** The effect of the [$set] on a document. *)
Definition applyUpdate (u : CastUpdate) (t : Task) : Task :=
  {| task_id := task_id t;
     task_title := default (task_title t) (set_title u);
     task_description := default (task_description t) (set_description u);
     task_status := default (task_status t) (set_status u);
     task_priority := default (task_priority t) (set_priority u);
     task_dueDate := default (task_dueDate t) (set_dueDate u);
     task_reminderDate := task_reminderDate t;
     task_userId := task_userId t |}.

(** [Task.findOneAndUpdate({ _id, userId }, update,
    { new: true, runValidators: true })]: filter and update are cast, the
    update is validated, and only then the matching document, if any, is
    updated; the updated document is returned. *)
Definition findOneAndUpdate (P : Platform) (_id : string) (userId : ObjectId)
    (u : Update) (db : Db) : Result (option Task * Db) :=
  match ObjectIds.cast _id with
  | None => Throw CastError
  | Some i =>
      match castUpdate P u with
      | Throw e => Throw e
      | Ok cu =>
          if validateUpdate cu then
            match Tasks db !! i with
            | Some t =>
                if decide (task_userId t = userId) then
                  let t' := applyUpdate cu t in
                  Ok (Some t', {| Users := Users db; Tasks := <[i := t']> (Tasks db) |})
                else Ok (None, db)
            | None => Ok (None, db)
            end
          else Throw ValidationError
      end
  end.

(** [Task.findOneAndDelete({ _id, userId })] *)
Definition findOneAndDelete (_id : string) (userId : ObjectId) (db : Db)
    : Result (option Task * Db) :=
  match ObjectIds.cast _id with
  | None => Throw CastError
  | Some i =>
      match Tasks db !! i with
      | Some t =>
          if decide (task_userId t = userId) then
            Ok (Some t, {| Users := Users db; Tasks := delete i (Tasks db) |})
          else Ok (None, db)
      | None => Ok (None, db)
      end
  end.

(** [task.reminderDate = date; task.save()] on a document that was read
    from the collection: the modified path is validated and written. *)
Definition save_reminder (t : Task) (date : option Z) (db : Db)
    : Result (Task * Db) :=
  match date with
  | None => Throw ValidationError
  | Some d =>
      let t' :=
        {| task_id := task_id t;
           task_title := task_title t;
           task_description := task_description t;
           task_status := task_status t;
           task_priority := task_priority t;
           task_dueDate := task_dueDate t;
           task_reminderDate := Some d;
           task_userId := task_userId t |} in
      Ok (t', {| Users := Users db; Tasks := <[task_id t := t']> (Tasks db) |})
  end.

End TaskModel.

(** ** The application ([index.js]) *)

Section App.

Context (P : Platform).

Definition respond (code : Z) (body : Json) : Response :=
  {| res_status := code; res_json := body |}.

(** [authHeader && authHeader.split(' ')[1]] *)
Definition token_of (authHeader : option string) : option string :=
  match JS.truthy authHeader with
  | Some h => JS.split_space h !! 1%nat
  | None => authHeader
  end.

(** [authenticateToken]: the middleware either answers itself ([inl]) or
    sets [req.user] and calls [next()] ([inr]). *)
Definition authenticateToken (authHeader : option string) (db : Db)
    : Response + Payload :=
  let token := token_of authHeader in
  match JS.truthy token with
  | None => inl (respond 401 (JError "Access denied. No token provided."))
  | Some token =>
      match jwt_verify P token with
      | Verified verified =>
          match UserModel.findById (payload_id verified) db with
          | None => inl (respond 401 (JError "Invalid token. User not found."))
          | Some _ => inr verified
          end
      | _ => inl (respond 400 (JError "Invalid or expired token."))
      end
  end.

(** [app.METHOD(path, authenticateToken, handler)]: the handler runs only
    when the middleware calls [next()], with [req.user] set. *)
Definition protected (handler : Payload -> Db -> Response * Db)
    (authHeader : option string) (db : Db) : Response * Db :=
  match authenticateToken authHeader db with
  | inl res => (res, db)
  | inr user => handler user db
  end.

(** [POST /auth/register] *)
Definition post_auth_register (body : gmap string string) (db : Db)
    : Response * Db :=
  match JS.truthy (body !! "name"), JS.truthy (body !! "email"),
        JS.truthy (body !! "password") with
  | Some name, Some email, Some password =>
      match UserModel.findOne_email email db with
      | Some existingUser => (respond 400 (JError "Email already in use"), db)
      | None =>
          let newUser := UserModel.new P name email password in
          match UserModel.save P newUser db with
          | Ok (newUser, db') =>
              let token := jwt_sign P (user_id newUser) in
              (respond 201
                 (JRegistered "User registered successfully" (user_id newUser)
                    (user_name newUser) (user_email newUser) token), db')
          | Throw error =>
              (respond 500 (JError "Server error during registration"), db)
          end
      end
  | _, _, _ =>
      (respond 400 (JMessage "Please provide name, email, and password"), db)
  end.

(** The same handler cut at its last [await]: what it does up to the
    construction of [newUser] (the lookup has been awaited, nothing is
    written yet), and what it does from [await newUser.save()] on.  Between
    the two, other requests can be served. *)
Definition register_lookup (body : gmap string string) (db : Db)
    : Response + User :=
  match JS.truthy (body !! "name"), JS.truthy (body !! "email"),
        JS.truthy (body !! "password") with
  | Some name, Some email, Some password =>
      match UserModel.findOne_email email db with
      | Some existingUser => inl (respond 400 (JError "Email already in use"))
      | None => inr (UserModel.new P name email password)
      end
  | _, _, _ =>
      inl (respond 400 (JMessage "Please provide name, email, and password"))
  end.

Definition register_save (pending : Response + User) (db : Db)
    : Response * Db :=
  match pending with
  | inl res => (res, db)
  | inr newUser =>
      match UserModel.save P newUser db with
      | Ok (newUser, db') =>
          let token := jwt_sign P (user_id newUser) in
          (respond 201
             (JRegistered "User registered successfully" (user_id newUser)
                (user_name newUser) (user_email newUser) token), db')
      | Throw error =>
          (respond 500 (JError "Server error during registration"), db)
      end
  end.

(** [POST /auth/login] *)
Definition post_auth_login (body : gmap string string) (db : Db)
    : Response * Db :=
  match JS.truthy (body !! "email"), JS.truthy (body !! "password") with
  | Some email, Some password =>
      match UserModel.findOne_email email db with
      | None => (respond 401 (JError "Invalid credentials"), db)
      | Some user =>
          if UserModel.comparePassword P user password then
            (respond 200 (JLogin "Login successful" (jwt_sign P (user_id user))), db)
          else (respond 401 (JError "Invalid credentials"), db)
      end
  | _, _ => (respond 400 (JMessage "Please provide email and password"), db)
  end.

(** [POST /tasks] *)
Definition post_tasks (body : gmap string string) (user : Payload) (db : Db)
    : Response * Db :=
  match JS.truthy (body !! "title"), JS.truthy (body !! "description"),
        JS.truthy (body !! "dueDate") with
  | Some title, Some description, Some dueDate =>
      match TaskModel.save_new P title description
              (JS.or_else (body !! "status") "pending")
              (JS.or_else (body !! "priority") "medium")
              (Date_parse P dueDate) (payload_id user) db with
      | Ok (savedTask, db') => (respond 201 (JTask savedTask), db')
      | Throw error => (respond 500 (JError "Error creating task"), db)
      end
  | _, _, _ => (respond 400 (JError "Missing required fields"), db)
  end.

(** [GET /tasks] *)
Definition get_tasks (query : gmap string string) (user : Payload) (db : Db)
    : Response * Db :=
  let q :=
    {| TaskModel.q_userId := payload_id user;
       TaskModel.q_status := JS.truthy (query !! "status");
       TaskModel.q_priority := JS.truthy (query !! "priority") |} in
  let tasks :=
    TaskModel.sort_dueDate
      (if decide (query !! "sort" = Some "desc") then -1 else 1)
      (TaskModel.find q db) in
  (respond 200 (JTasks tasks), db).

(** [GET /tasks/:id] *)
Definition get_task (id : string) (user : Payload) (db : Db)
    : Response * Db :=
  match TaskModel.findOne id (payload_id user) db with
  | Ok None => (respond 404 (JError "Task not found"), db)
  | Ok (Some task) => (respond 200 (JTask task), db)
  | Throw error => (respond 500 (JError "Error fetching task"), db)
  end.

(** The update document of [PUT /tasks/:id]:
    [const { title, description, status, priority, dueDate } = req.body]. *)
Definition update_of (body : gmap string string) : TaskModel.Update :=
  {| TaskModel.u_title := body !! "title";
     TaskModel.u_description := body !! "description";
     TaskModel.u_status := body !! "status";
     TaskModel.u_priority := body !! "priority";
     TaskModel.u_dueDate := body !! "dueDate" |}.

(** [PUT /tasks/:id] *)
Definition put_task (id : string) (body : gmap string string) (user : Payload)
    (db : Db) : Response * Db :=
  match TaskModel.findOneAndUpdate P id (payload_id user) (update_of body) db with
  | Ok (None, _) => (respond 404 (JError "Task not found"), db)
  | Ok (Some updatedTask, db') => (respond 200 (JTask updatedTask), db')
  | Throw error => (respond 500 (JError "Error updating task"), db)
  end.

(** [DELETE /tasks/:id] *)
Definition delete_task (id : string) (user : Payload) (db : Db)
    : Response * Db :=
  match TaskModel.findOneAndDelete id (payload_id user) db with
  | Ok (None, _) => (respond 404 (JError "Task not found"), db)
  | Ok (Some deletedTask, db') =>
      (respond 200 (JMessage "Task deleted successfully"), db')
  | Throw error => (respond 500 (JError "Error deleting task"), db)
  end.

(** [POST /tasks/:id/reminder] *)
Definition post_task_reminder (id : string) (body : gmap string string)
    (user : Payload) (db : Db) : Response * Db :=
  match JS.truthy (body !! "reminderDate") with
  | None => (respond 400 (JError "Missing reminder date"), db)
  | Some reminderDate =>
      match TaskModel.findOne id (payload_id user) db with
      | Ok None => (respond 404 (JError "Task not found"), db)
      | Ok (Some task) =>
          match TaskModel.save_reminder task (Date_parse P reminderDate) db with
          | Ok (task, db') =>
              (respond 200 (JReminder "Reminder set successfully" task), db')
          | Throw error => (respond 500 (JError "Error setting reminder"), db)
          end
      | Throw error => (respond 500 (JError "Error setting reminder"), db)
      end
  end.

(** A request to one of the routes. *)
Inductive Request :=
  | PostAuthRegister (body : gmap string string)
  | PostAuthLogin (body : gmap string string)
  | PostTasks (authorization : option string) (body : gmap string string)
  | GetTasks (authorization : option string) (query : gmap string string)
  | GetTask (authorization : option string) (id : string)
  | PutTask (authorization : option string) (id : string)
      (body : gmap string string)
  | DeleteTask (authorization : option string) (id : string)
  | PostTaskReminder (authorization : option string) (id : string)
      (body : gmap string string).

(** The routing table: the guard and the handler of each route, on a
    request whose body the body parser has already parsed. *)
Definition handle (req : Request) (db : Db) : Response * Db :=
  match req with
  | PostAuthRegister body => post_auth_register body db
  | PostAuthLogin body => post_auth_login body db
  | PostTasks auth body => protected (post_tasks body) auth db
  | GetTasks auth query => protected (get_tasks query) auth db
  | GetTask auth id => protected (get_task id) auth db
  | PutTask auth id body => protected (put_task id body) auth db
  | DeleteTask auth id => protected (delete_task id) auth db
  | PostTaskReminder auth id body => protected (post_task_reminder id body) auth db
  end.

(** The [Authorization] header of a request to a protected route. *)
Definition authorization_of (req : Request) : option (option string) :=
  match req with
  | PostAuthRegister _ | PostAuthLogin _ => None
  | PostTasks auth _ | GetTasks auth _ | GetTask auth _ | PutTask auth _ _
  | DeleteTask auth _ | PostTaskReminder auth _ _ => Some auth
  end.

End App.

(** Two registrations whose lookups have both been answered before either
    saves: both read [db], then the first saves, then the second. *)
Definition register_interleaved (P1 P2 : Platform)
    (body1 body2 : gmap string string) (db : Db)
    : (Response * Response) * Db :=
  let pending1 := register_lookup P1 body1 db in
  let pending2 := register_lookup P2 body2 db in
  let '(res1, db1) := register_save P1 pending1 db in
  let '(res2, db2) := register_save P2 pending2 db1 in
  ((res1, res2), db2).

(** The databases the server can be in, when every platform it meets
    satisfies [ok].  It starts empty and every request, served on whatever
    the platform is at that moment, leads to the next.  Handlers interleave
    at their [await]s; the one interleaving that matters for the user
    collection is a registration whose lookup ran in an earlier database
    [db0], on the platform [P0] of that moment, and whose [save] lands in
    the current one. *)
Inductive reachable_on (ok : Platform -> Prop) : Db -> Prop :=
  | reachable_empty : reachable_on ok {| Users := ∅; Tasks := ∅ |}
  | reachable_handle P req db :
      ok P -> reachable_on ok db -> reachable_on ok (handle P req db).2
  | reachable_late_save P0 P body db0 db newUser :
      ok P0 -> ok P -> reachable_on ok db0 -> reachable_on ok db ->
      register_lookup P0 body db0 = inr newUser ->
      reachable_on ok (register_save P (inr newUser) db).2.

(** The databases the server can be in, whatever the platforms. *)
Definition reachable : Db -> Prop := reachable_on (λ _, True).

(** [serve] answers a sequence of requests one after the other, each on the
    platform of its moment. *)
Fixpoint serve (reqs : list (Platform * Request)) (db : Db)
    : list Response * Db :=
  match reqs with
  | [] => ([], db)
  | (P, req) :: reqs =>
      let '(res, db1) := handle P req db in
      let '(ress, db2) := serve reqs db1 in
      (res :: ress, db2)
  end.

(** ** Vocabulary of the properties *)

(** The database in which no task is stored under [i]. *)
Definition without (i : ObjectId) (db : Db) : Db :=
  {| Users := Users db; Tasks := delete i (Tasks db) |}.

(** No task stored under [i] belongs to [userId]: there is none, or it
    belongs to somebody else. *)
Definition not_owned (i : ObjectId) (userId : ObjectId) (db : Db) : Prop :=
  forall t, Tasks db !! i = Some t -> task_userId t <> userId.

(** What the query of [GET /tasks] selects for a caller. *)
Definition selected (query : gmap string string) (user : Payload) (t : Task)
    : Prop :=
  task_userId t = payload_id user
  /\ (forall v, JS.truthy (query !! "status") = Some v -> task_status t = v)
  /\ (forall v, JS.truthy (query !! "priority") = Some v -> task_priority t = v).

(** A string that does not begin with white space. *)
Definition starts_black (s : string) : Prop := JS.trim_start s = s.

(** Every stored email is in normal form. *)
Definition normalized_emails (db : Db) : Prop :=
  forall i u, Users db !! i = Some u ->
              UserModel.set_email (user_email u) = user_email u.

(** No two users have the same normalised email. *)
Definition unique_emails (db : Db) : Prop :=
  forall i j u v,
    Users db !! i = Some u -> Users db !! j = Some v ->
    UserModel.set_email (user_email u) = UserModel.set_email (user_email v) ->
    i = j.

(** Every task is stored under its own [_id]. *)
Definition ids_consistent (db : Db) : Prop :=
  forall i t, Tasks db !! i = Some t -> task_id t = i.

(** Every user is stored under its own [_id]. *)
Definition user_ids_consistent (db : Db) : Prop :=
  forall i u, Users db !! i = Some u -> user_id u = i.

(** The owner of every task is a stored user. *)
Definition owners_exist (db : Db) : Prop :=
  forall i t, Tasks db !! i = Some t -> is_Some (Users db !! task_userId t).

(** [hashing hashes P]: what [bcrypt.hash] returns on [P] for a password is
    related to that password by [hashes].  The relation stands for "is a
    bcrypt hash of", whatever the salt. *)
Definition hashing (hashes : string -> string -> Prop) (P : Platform) : Prop :=
  forall password, hashes (bcrypt_hash P password) password.

(** What the user model lets into the collection: a trimmed, non-empty
    name, a normalised, non-empty email, a hash (in the sense of [hashes])
    of a password of 6 characters or more, and the two timestamps of the
    first save. *)
Definition stored_user_ok (hashes : string -> string -> Prop) (u : User)
    : Prop :=
  JS.trim (user_name u) = user_name u
  /\ user_name u <> ""
  /\ UserModel.set_email (user_email u) = user_email u
  /\ user_email u <> ""
  /\ (exists password,
         hashes (user_password u) password
         /\ (6 <= String.length password)%nat)
  /\ (exists now, user_createdAt u = Some now /\ user_updatedAt u = Some now).

(** Of two answers to registrations, one is a success and the other is
    400 "Email already in use". *)
Definition one_succeeds_other_duplicate (res1 res2 : Response) : Prop :=
  res_status res1 = 201 /\ res2 = respond 400 (JError "Email already in use")
  \/ res1 = respond 400 (JError "Email already in use") /\ res_status res2 = 201.

(** The task [t] with its reminder set to [d]. *)
Definition with_reminder (d : Z) (t : Task) : Task :=
  {| task_id := task_id t;
     task_title := task_title t;
     task_description := task_description t;
     task_status := task_status t;
     task_priority := task_priority t;
     task_dueDate := task_dueDate t;
     task_reminderDate := Some d;
     task_userId := task_userId t |}.

(** The status codes the guard and the handlers answer with. *)
Definition status_codes : list Z := [ 200; 201; 400; 401; 404; 500 ].

(** ** A small platform and database to run the routes on *)

Module Demo.

Definition ann : ObjectId := 0%N.
Definition bob : ObjectId := 1%N.

(** The platform on which the generator of ObjectIds draws [i]. *)
Definition platform_drawing (i : ObjectId) : Platform :=
  {| jwt_verify token :=
       if String.eqb token "token-ann" then Verified (mkPayload ann 0 86400)
       else if String.eqb token "token-bob" then Verified (mkPayload bob 0 86400)
       else if String.eqb token "token-gone" then Verified (mkPayload 77%N 0 86400)
       else if String.eqb token "token-old" then TokenExpiredError
       else JsonWebTokenError;
     jwt_sign i :=
       if N.eqb i ann then "token-ann"
       else if N.eqb i bob then "token-bob" else "token-new";
     bcrypt_hash password := "$2a$10$" ++ password;
     bcrypt_compare candidate hash := String.eqb ("$2a$10$" ++ candidate) hash;
     Date_now := 1700000000000;
     Date_parse s :=
       if String.eqb s "2025-01-01" then Some 1735689600000
       else if String.eqb s "2025-06-30" then Some 1751241600000
       else None;
     SchemaDate_cast s :=
       if String.eqb s "2025-01-01" then Some 1735689600000
       else if String.eqb s "2025-06-30" then Some 1751241600000
       else None;
     ObjectId_new := i |}.

Definition platform : Platform := platform_drawing 4%N.

(** The hashes of [platform]. *)
Definition hashes (hash password : string) : Prop :=
  hash = "$2a$10$" ++ password.

Definition user_ann : User :=
  mkUser ann "Ann" "ann@x.com" "$2a$10$secret1"
    (Some 1700000000000) (Some 1700000000000).
Definition user_bob : User :=
  mkUser bob "Bob" "bob@x.com" "$2a$10$secret2"
    (Some 1700000000000) (Some 1700000000000).

Definition task1 : Task :=
  mkTask 1%N "Write spec" "draft v1" "pending" "medium" 1735689600000 None ann.
Definition task2 : Task :=
  mkTask 2%N "Review" "second pass" "completed" "high" 1751241600000 None ann.
Definition task3 : Task :=
  mkTask 3%N "Shop" "milk" "pending" "low" 1735689600000 None bob.

Definition db : Db :=
  {| Users := <[ann := user_ann]> (<[bob := user_bob]> ∅);
     Tasks := <[1%N := task1]> (<[2%N := task2]> (<[3%N := task3]> ∅)) |}.

Definition id0 : string := "000000000000000000000000".
Definition id1 : string := "000000000000000000000001".
Definition id3 : string := "000000000000000000000003".
Definition id9 : string := "000000000000000000000009".

(** The end-to-end scenarios 1 to 4 of the specification, as one session
    that starts on the empty database. *)
Definition session : list (Platform * Request) :=
  [ (platform_drawing ann,
     PostAuthRegister
       (<["name" := "Ann"]>
          (<["email" := "ann@x.com"]> {[ "password" := "secret1" ]})));
    (platform,
     PostAuthLogin (<["email" := "ann@x.com"]> {[ "password" := "wrong" ]}));
    (platform_drawing 0%N,
     PostTasks (Some "Bearer token-ann")
       (<["title" := "Write spec"]>
          (<["description" := "draft v1"]> {[ "dueDate" := "2025-01-01" ]})));
    (platform_drawing bob,
     PostAuthRegister
       (<["name" := "Bob"]>
          (<["email" := "bob@x.com"]> {[ "password" := "secret2" ]})));
    (platform, GetTask (Some "Bearer token-bob") id0);
    (platform, PutTask (Some "Bearer token-ann") id0 {[ "status" := "completed" ]});
    (platform, GetTask (Some "Bearer token-ann") id0) ].

End Demo.

(** * Properties *)

(** ** Strings *)

Lemma truthy_Some v s : JS.truthy v = Some s -> v = Some s /\ s <> "".
Proof.
  destruct v as [x|]; simpl; [|done].
  destruct (String.eqb_spec x ""); [done|].
  intros [= <-]. done.
Qed.

Lemma truthy_nonempty s : s <> "" -> JS.truthy (Some s) = Some s.
Proof.
  intros Hs. simpl. destruct (String.eqb_spec s ""); [done|reflexivity].
Qed.

Lemma truthy_None v : JS.truthy v = None -> v = None \/ v = Some "".
Proof.
  destruct v as [x|]; simpl; [|by left].
  destruct (String.eqb_spec x ""); [subst; by right|done].
Qed.

Lemma split_space_spaceless s :
  JS.spaceless s = true -> JS.split_space s = [s].
Proof.
  induction s as [|c s IH]; simpl; [done|].
  destruct (JS.is_space c); simpl; [done|].
  intros Hs. by rewrite (IH Hs).
Qed.

Lemma split_space_app a b :
  JS.spaceless a = true ->
  JS.split_space (a ++ " " ++ b) = a :: JS.split_space b.
Proof.
  induction a as [|c a IH]; simpl; [done|].
  destruct (JS.is_space c); simpl; [done|].
  intros Ha. by rewrite (IH Ha).
Qed.

(** ** The authentication guard *)

Lemma authenticateToken_no_token P auth db :
  JS.truthy (token_of auth) = None ->
  authenticateToken P auth db
  = inl (respond 401 (JError "Access denied. No token provided.")).
Proof. intros H. unfold authenticateToken. by rewrite H. Qed.

Lemma authenticateToken_verified P auth db token verified :
  JS.truthy (token_of auth) = Some token ->
  jwt_verify P token = Verified verified ->
  authenticateToken P auth db
  = match UserModel.findById (payload_id verified) db with
    | None => inl (respond 401 (JError "Invalid token. User not found."))
    | Some _ => inr verified
    end.
Proof. intros H1 H2. unfold authenticateToken. by rewrite H1, H2. Qed.

Lemma authenticateToken_throws P auth db token :
  JS.truthy (token_of auth) = Some token ->
  (forall verified, jwt_verify P token <> Verified verified) ->
  authenticateToken P auth db
  = inl (respond 400 (JError "Invalid or expired token.")).
Proof.
  intros H1 H2. unfold authenticateToken. rewrite H1.
  destruct (jwt_verify P token) as [v| | |] eqn:E; try reflexivity.
  by destruct (H2 v).
Qed.

(** The guard reads the user collection only. *)
Lemma authenticateToken_users P auth db db' :
  Users db = Users db' ->
  authenticateToken P auth db = authenticateToken P auth db'.
Proof.
  intros H. unfold authenticateToken, UserModel.findById. by rewrite H.
Qed.

Lemma handle_protected P req auth db :
  authorization_of req = Some auth ->
  exists handler, handle P req db = protected P handler auth db.
Proof.
  destruct req; simpl; intros [= <-]; eauto.
Qed.

(** C2.  A token that verifies but whose subject is not in the user
    collection is answered by the guard with 401 "Invalid token. User not
    found." and a request without a token with 401 "Access denied. No token
    provided."; in both cases the route's handler is not run, whatever it
    is, and the database is the one the request found. *)
Theorem guard_rejects_orphan_and_missing_token P auth db :
  (forall token verified,
      JS.truthy (token_of auth) = Some token ->
      jwt_verify P token = Verified verified ->
      UserModel.findById (payload_id verified) db = None ->
      (forall handler,
          protected P handler auth db
          = (respond 401 (JError "Invalid token. User not found."), db))
      /\ (forall req,
             authorization_of req = Some auth ->
             handle P req db
             = (respond 401 (JError "Invalid token. User not found."), db)))
  /\ (JS.truthy (token_of auth) = None ->
      (forall handler,
          protected P handler auth db
          = (respond 401 (JError "Access denied. No token provided."), db))
      /\ (forall req,
             authorization_of req = Some auth ->
             handle P req db
             = (respond 401 (JError "Access denied. No token provided."), db))).
Proof.
  split.
  - intros token verified Htok Hver Hnone.
    assert (Hh : forall handler,
               protected P handler auth db
               = (respond 401 (JError "Invalid token. User not found."), db)).
    { intros handler. unfold protected.
      rewrite (authenticateToken_verified _ _ _ _ _ Htok Hver), Hnone.
      reflexivity. }
    split; [exact Hh|].
    intros req Hreq. destruct (handle_protected P req auth db Hreq) as [h ->].
    apply Hh.
  - intros Hnone.
    assert (Hh : forall handler,
               protected P handler auth db
               = (respond 401 (JError "Access denied. No token provided."), db)).
    { intros handler. unfold protected.
      by rewrite (authenticateToken_no_token _ _ _ Hnone). }
    split; [exact Hh|].
    intros req Hreq. destruct (handle_protected P req auth db Hreq) as [h ->].
    apply Hh.
Qed.

(** C4, as amended.  [jwt.verify] tells an expired token from a malformed
    one by the error it throws, but the guard catches every error alike:
    whatever the error, the answer is 400 "Invalid or expired token.", the
    handler is not run and the database is unchanged. *)
Theorem guard_merges_verification_failures P auth db token :
  JS.truthy (token_of auth) = Some token ->
  jwt_verify P token = TokenExpiredError
  \/ jwt_verify P token = JsonWebTokenError
  \/ jwt_verify P token = NotBeforeError ->
  authenticateToken P auth db
  = inl (respond 400 (JError "Invalid or expired token."))
  /\ forall handler,
      protected P handler auth db
      = (respond 400 (JError "Invalid or expired token."), db).
Proof.
  intros Htok Herr.
  assert (H : authenticateToken P auth db
              = inl (respond 400 (JError "Invalid or expired token."))).
  { apply (authenticateToken_throws _ _ _ _ Htok).
    intros v Hv. destruct Herr as [E|[E|E]]; congruence. }
  split; [exact H|].
  intros handler. unfold protected. by rewrite H.
Qed.

(** C9.  The guard never looks at the scheme: the token is the second
    element of the header cut at its spaces.  A header made of any
    space-free scheme, one space and a token that verifies for an existing
    user authenticates; a header without a space is answered like a request
    without the header. *)
Theorem guard_ignores_scheme P db :
  (forall h, h <> "" -> token_of (Some h) = JS.split_space h !! 1%nat)
  /\ (forall scheme token verified user,
         JS.spaceless scheme = true ->
         JS.spaceless token = true ->
         token <> "" ->
         jwt_verify P token = Verified verified ->
         UserModel.findById (payload_id verified) db = Some user ->
         authenticateToken P (Some (scheme ++ " " ++ token)) db = inr verified)
  /\ (forall h,
         JS.spaceless h = true ->
         authenticateToken P (Some h) db = authenticateToken P None db
         /\ authenticateToken P (Some h) db
            = inl (respond 401 (JError "Access denied. No token provided."))).
Proof.
  split; [|split].
  - intros h Hh. unfold token_of. by rewrite (truthy_nonempty _ Hh).
  - intros scheme token verified user Hs Ht Hne Hver Huser.
    assert (Htok : JS.truthy (token_of (Some (scheme ++ " " ++ token)))
                   = Some token).
    { unfold token_of. rewrite truthy_nonempty.
      - rewrite (split_space_app _ _ Hs), (split_space_spaceless _ Ht).
        simpl. by apply truthy_nonempty.
      - destruct scheme; discriminate. }
    rewrite (authenticateToken_verified _ _ _ _ _ Htok Hver). by rewrite Huser.
  - intros h Hh.
    assert (Htok : JS.truthy (token_of (Some h)) = None).
    { unfold token_of. destruct (JS.truthy (Some h)) as [h'|] eqn:E.
      - apply truthy_Some in E as [[= <-] _].
        by rewrite (split_space_spaceless _ Hh).
      - exact E. }
    rewrite (authenticateToken_no_token _ _ _ Htok).
    by rewrite (authenticateToken_no_token P None db).
Qed.

(** ** Task routes: scoping by owner *)

Lemma not_owned_other i userId db t :
  Tasks db !! i = Some t -> task_userId t <> userId -> not_owned i userId db.
Proof. intros Ht Hne t' Ht'. congruence. Qed.

Lemma not_owned_without i userId db : not_owned i userId (without i db).
Proof. intros t. unfold without. simpl. by rewrite lookup_delete_eq. Qed.

Lemma findOne_not_owned id i userId db :
  ObjectIds.cast id = Some i ->
  not_owned i userId db ->
  TaskModel.findOne id userId db = Ok None.
Proof.
  intros Hc Hn. unfold TaskModel.findOne. rewrite Hc.
  destruct (Tasks db !! i) as [t|] eqn:E; [|done].
  destruct (decide (task_userId t = userId)); [|done].
  by destruct (Hn t).
Qed.

Lemma findOneAndDelete_not_owned id i userId db :
  ObjectIds.cast id = Some i ->
  not_owned i userId db ->
  TaskModel.findOneAndDelete id userId db = Ok (None, db).
Proof.
  intros Hc Hn. unfold TaskModel.findOneAndDelete. rewrite Hc.
  destruct (Tasks db !! i) as [t|] eqn:E; [|done].
  destruct (decide (task_userId t = userId)); [|done].
  by destruct (Hn t).
Qed.

(** On a document the caller does not own, [findOneAndUpdate] depends on
    the update only: it throws when the update does not cast or validate,
    and finds nothing otherwise. *)
Lemma findOneAndUpdate_not_owned P id i userId u db :
  ObjectIds.cast id = Some i ->
  not_owned i userId db ->
  TaskModel.findOneAndUpdate P id userId u db
  = match TaskModel.castUpdate P u with
    | Throw e => Throw e
    | Ok cu => if TaskModel.validateUpdate cu then Ok (None, db)
               else Throw ValidationError
    end.
Proof.
  intros Hc Hn. unfold TaskModel.findOneAndUpdate. rewrite Hc.
  destruct (TaskModel.castUpdate P u) as [cu|e]; [|done].
  destruct (TaskModel.validateUpdate cu); [|done].
  destruct (Tasks db !! i) as [t|] eqn:E; [|done].
  destruct (decide (task_userId t = userId)); [|done].
  by destruct (Hn t).
Qed.

Lemma get_task_not_owned id i user db :
  ObjectIds.cast id = Some i ->
  not_owned i (payload_id user) db ->
  get_task id user db = (respond 404 (JError "Task not found"), db).
Proof.
  intros Hc Hn. unfold get_task. by rewrite (findOne_not_owned _ _ _ _ Hc Hn).
Qed.

Lemma delete_task_not_owned id i user db :
  ObjectIds.cast id = Some i ->
  not_owned i (payload_id user) db ->
  delete_task id user db = (respond 404 (JError "Task not found"), db).
Proof.
  intros Hc Hn. unfold delete_task.
  by rewrite (findOneAndDelete_not_owned _ _ _ _ Hc Hn).
Qed.

Lemma put_task_not_owned P id i body user db :
  ObjectIds.cast id = Some i ->
  not_owned i (payload_id user) db ->
  put_task P id body user db
  = (match TaskModel.castUpdate P (update_of body) with
     | Throw e => respond 500 (JError "Error updating task")
     | Ok cu => if TaskModel.validateUpdate cu
                then respond 404 (JError "Task not found")
                else respond 500 (JError "Error updating task")
     end, db).
Proof.
  intros Hc Hn. unfold put_task.
  rewrite (findOneAndUpdate_not_owned _ _ _ _ _ _ Hc Hn).
  destruct (TaskModel.castUpdate P (update_of body)) as [cu|e]; [|done].
  by destruct (TaskModel.validateUpdate cu).
Qed.

Lemma protected_next P handler auth db user :
  authenticateToken P auth db = inr user ->
  protected P handler auth db = handler user db.
Proof. intros H. unfold protected. by rewrite H. Qed.

(** C1, as amended.  Caller B is authenticated and the task with the given
    id belongs to another user.  Then B's GET and DELETE are answered 404
    "Task not found"; B's PUT is answered 404 "Task not found" when its body
    passes the schema's casts and validators and 500 "Error updating task"
    when it does not; the database is unchanged; and each answer is the one
    the same request gets from the database in which the task does not
    exist. *)
Theorem other_owner_is_not_found P auth db user id i t :
  authenticateToken P auth db = inr user ->
  ObjectIds.cast id = Some i ->
  Tasks db !! i = Some t ->
  task_userId t <> payload_id user ->
  handle P (GetTask auth id) db = (respond 404 (JError "Task not found"), db)
  /\ handle P (DeleteTask auth id) db
     = (respond 404 (JError "Task not found"), db)
  /\ (forall body cu,
         TaskModel.castUpdate P (update_of body) = Ok cu ->
         TaskModel.validateUpdate cu = true ->
         handle P (PutTask auth id body) db
         = (respond 404 (JError "Task not found"), db))
  /\ (forall body,
         (forall cu, TaskModel.castUpdate P (update_of body) = Ok cu ->
                     TaskModel.validateUpdate cu = false) ->
         handle P (PutTask auth id body) db
         = (respond 500 (JError "Error updating task"), db))
  /\ (forall body,
         (handle P (PutTask auth id body) db).2 = db
         /\ ((handle P (PutTask auth id body) db).1
             = respond 404 (JError "Task not found")
             \/ (handle P (PutTask auth id body) db).1
                = respond 500 (JError "Error updating task")))
  /\ (handle P (GetTask auth id) db).1
     = (handle P (GetTask auth id) (without i db)).1
  /\ (handle P (DeleteTask auth id) db).1
     = (handle P (DeleteTask auth id) (without i db)).1
  /\ (forall body,
         (handle P (PutTask auth id body) db).1
         = (handle P (PutTask auth id body) (without i db)).1).
Proof.
  intros Hauth Hc Ht Hne.
  pose proof (not_owned_other _ _ _ _ Ht Hne) as Hn.
  pose proof (not_owned_without i (payload_id user) db) as Hn0.
  assert (Hauth0 : authenticateToken P auth (without i db) = inr user).
  { by rewrite <- (authenticateToken_users P auth db (without i db)). }
  simpl. rewrite !(protected_next _ _ _ _ _ Hauth).
  rewrite !(protected_next _ _ _ _ _ Hauth0).
  rewrite (get_task_not_owned _ _ _ _ Hc Hn).
  rewrite (get_task_not_owned _ _ _ _ Hc Hn0).
  rewrite (delete_task_not_owned _ _ _ _ Hc Hn).
  rewrite (delete_task_not_owned _ _ _ _ Hc Hn0).
  repeat split.
  - intros body cu Hcu Hv.
    rewrite (protected_next _ _ _ _ _ Hauth).
    rewrite (put_task_not_owned _ _ _ _ _ _ Hc Hn). by rewrite Hcu, Hv.
  - intros body Hbad.
    rewrite (protected_next _ _ _ _ _ Hauth).
    rewrite (put_task_not_owned _ _ _ _ _ _ Hc Hn).
    destruct (TaskModel.castUpdate P (update_of body)) as [cu|e]; [|done].
    by rewrite (Hbad cu eq_refl).
  - rewrite (protected_next _ _ _ _ _ Hauth).
    by rewrite (put_task_not_owned _ _ _ _ _ _ Hc Hn).
  - rewrite (protected_next _ _ _ _ _ Hauth).
    rewrite (put_task_not_owned _ _ _ _ _ _ Hc Hn). simpl.
    destruct (TaskModel.castUpdate P (update_of body)) as [cu|e]; [|by right].
    destruct (TaskModel.validateUpdate cu); [by left|by right].
  - intros body. rewrite (protected_next _ _ _ _ _ Hauth).
    rewrite (protected_next _ _ _ _ _ Hauth0).
    rewrite (put_task_not_owned _ _ _ _ _ _ Hc Hn).
    by rewrite (put_task_not_owned _ _ _ _ _ _ Hc Hn0).
Qed.

Lemma serve_replicate_fixed P req res db n :
  handle P req db = (res, db) ->
  serve (replicate n (P, req)) db = (replicate n res, db).
Proof.
  intros H. induction n as [|n IH]; simpl; [done|].
  by rewrite H, IH.
Qed.

(** C8, as amended.  The caller is authenticated and the id is a
    well-formed ObjectId (24 hexadecimal digits) under which the caller owns
    no task.  Then every DELETE of that id, however often it is repeated, is
    answered 404 "Task not found" and leaves the database as it was.  This
    is in particular the situation right after a DELETE that succeeded. *)
Theorem delete_absent_is_not_found P auth db user id i :
  authenticateToken P auth db = inr user ->
  ObjectIds.cast id = Some i ->
  (not_owned i (payload_id user) db ->
   forall n,
     serve (replicate n (P, DeleteTask auth id)) db
     = (replicate n (respond 404 (JError "Task not found")), db))
  /\ (forall t,
         Tasks db !! i = Some t ->
         task_userId t = payload_id user ->
         exists db',
           handle P (DeleteTask auth id) db
           = (respond 200 (JMessage "Task deleted successfully"), db')
           /\ Tasks db' = delete i (Tasks db)
           /\ forall n,
               serve (replicate n (P, DeleteTask auth id)) db'
               = (replicate n (respond 404 (JError "Task not found")), db')).
Proof.
  intros Hauth Hc. split.
  - intros Hn n. apply serve_replicate_fixed. simpl.
    rewrite (protected_next _ _ _ _ _ Hauth).
    by apply (delete_task_not_owned _ i).
  - intros t Ht Hown. exists (without i db). split; [|split; [done|]].
    + simpl. rewrite (protected_next _ _ _ _ _ Hauth).
      unfold delete_task, TaskModel.findOneAndDelete.
      rewrite Hc, Ht. by rewrite decide_True.
    + intros n. apply serve_replicate_fixed. simpl.
      rewrite (protected_next P _ auth (without i db) user).
      * apply (delete_task_not_owned _ i); [done|]. apply not_owned_without.
      * by rewrite <- (authenticateToken_users P auth db (without i db)).
Qed.

(** ** Task routes: update *)

Lemma castUpdate_fields P u cu :
  TaskModel.castUpdate P u = Ok cu ->
  TaskModel.set_title cu = TaskModel.u_title u
  /\ TaskModel.set_description cu = TaskModel.u_description u
  /\ TaskModel.set_status cu = TaskModel.u_status u
  /\ TaskModel.set_priority cu = TaskModel.u_priority u
  /\ (TaskModel.u_dueDate u = None -> TaskModel.set_dueDate cu = None)
  /\ (forall v, TaskModel.u_dueDate u = Some v ->
                TaskModel.set_dueDate cu = SchemaDate_cast P v).
Proof.
  unfold TaskModel.castUpdate.
  destruct (TaskModel.u_dueDate u) as [v|] eqn:E.
  - destruct (SchemaDate_cast P v) as [d|] eqn:Ed; [|done].
    intros [= <-]. simpl. repeat split; try done.
    intros v' [= <-]. done.
  - intros [= <-]. simpl. repeat split; done.
Qed.

(** What [PUT /tasks/:id] does to a task the caller owns. *)
Lemma put_task_owned P id i body user db t :
  ObjectIds.cast id = Some i ->
  Tasks db !! i = Some t ->
  task_userId t = payload_id user ->
  put_task P id body user db
  = match TaskModel.castUpdate P (update_of body) with
    | Throw e => (respond 500 (JError "Error updating task"), db)
    | Ok cu =>
        if TaskModel.validateUpdate cu then
          (respond 200 (JTask (TaskModel.applyUpdate cu t)),
           {| Users := Users db;
              Tasks := <[i := TaskModel.applyUpdate cu t]> (Tasks db) |})
        else (respond 500 (JError "Error updating task"), db)
    end.
Proof.
  intros Hc Ht Hown. unfold put_task, TaskModel.findOneAndUpdate.
  rewrite Hc. destruct (TaskModel.castUpdate P (update_of body)) as [cu|e]; [|done].
  destruct (TaskModel.validateUpdate cu); [|done].
  rewrite Ht. by rewrite decide_True.
Qed.

(** C5.  PUT on a task the caller owns, with any body.  Whatever the
    answer, the task is still stored under its id afterwards, each of
    [title], [description], [status], [priority], [dueDate] that the body
    does not provide has its prior value, [reminderDate], owner and id are
    as before, and no other task and no user is touched.  When the body
    casts and validates, the answer is 200 with the updated task, in which
    every provided field has the provided value, and a GET that follows
    returns that task. *)
Theorem update_changes_only_provided_fields P id i body user db t :
  ObjectIds.cast id = Some i ->
  Tasks db !! i = Some t ->
  task_userId t = payload_id user ->
  exists t',
    Tasks (put_task P id body user db).2 !! i = Some t'
    /\ (body !! "title" = None -> task_title t' = task_title t)
    /\ (body !! "description" = None -> task_description t' = task_description t)
    /\ (body !! "status" = None -> task_status t' = task_status t)
    /\ (body !! "priority" = None -> task_priority t' = task_priority t)
    /\ (body !! "dueDate" = None -> task_dueDate t' = task_dueDate t)
    /\ task_reminderDate t' = task_reminderDate t
    /\ task_userId t' = task_userId t
    /\ task_id t' = task_id t
    /\ (forall j, j <> i ->
                  Tasks (put_task P id body user db).2 !! j = Tasks db !! j)
    /\ Users (put_task P id body user db).2 = Users db
    /\ (forall cu,
           TaskModel.castUpdate P (update_of body) = Ok cu ->
           TaskModel.validateUpdate cu = true ->
           (put_task P id body user db).1 = respond 200 (JTask t')
           /\ (forall v, body !! "title" = Some v -> task_title t' = v)
           /\ (forall v, body !! "description" = Some v -> task_description t' = v)
           /\ (forall v, body !! "status" = Some v -> task_status t' = v)
           /\ (forall v, body !! "priority" = Some v -> task_priority t' = v)
           /\ (forall v, body !! "dueDate" = Some v ->
                         Some (task_dueDate t') = SchemaDate_cast P v)
           /\ get_task id user (put_task P id body user db).2
              = (respond 200 (JTask t'), (put_task P id body user db).2)).
Proof.
  intros Hc Ht Hown. rewrite (put_task_owned _ _ _ _ _ _ _ Hc Ht Hown).
  destruct (TaskModel.castUpdate P (update_of body)) as [cu|e] eqn:Hcu.
  - destruct (castUpdate_fields _ _ _ Hcu) as (Ht1 & Ht2 & Ht3 & Ht4 & Ht5 & Ht6).
    simpl in Ht1, Ht2, Ht3, Ht4, Ht5, Ht6.
    destruct (TaskModel.validateUpdate cu) eqn:Hv.
    + exists (TaskModel.applyUpdate cu t). simpl.
      rewrite lookup_insert_eq.
      split; [done|].
      split; [intros E; by rewrite Ht1, E|].
      split; [intros E; by rewrite Ht2, E|].
      split; [intros E; by rewrite Ht3, E|].
      split; [intros E; by rewrite Ht4, E|].
      split; [intros E; by rewrite (Ht5 E)|].
      split; [done|]. split; [done|]. split; [done|].
      split; [intros j Hj; by rewrite lookup_insert_ne|].
      split; [done|].
      intros cu' [= <-] _.
      split; [done|].
      split; [intros v E; by rewrite Ht1, E|].
      split; [intros v E; by rewrite Ht2, E|].
      split; [intros v E; by rewrite Ht3, E|].
      split; [intros v E; by rewrite Ht4, E|].
      split.
      { intros v E. pose proof (Ht6 v E) as E6.
        destruct (TaskModel.set_dueDate cu) as [d|] eqn:Ed; [by rewrite <- E6|].
        exfalso. unfold TaskModel.castUpdate in Hcu. simpl in Hcu.
        rewrite E, <- E6 in Hcu. discriminate. }
      unfold get_task, TaskModel.findOne. rewrite Hc. simpl.
      rewrite lookup_insert_eq. simpl. by rewrite decide_True.
    + exists t. simpl. split_and!; try done.
      intros cu' [= <-]. congruence.
  - exists t. simpl. split_and!; done.
Qed.

(** ** Task routes: create *)

Lemma or_else_truthy v d s : JS.truthy v = Some s -> JS.or_else v d = s.
Proof. intros H. unfold JS.or_else. by rewrite H. Qed.

Lemma or_else_default v d : JS.truthy v = None -> JS.or_else v d = d.
Proof. intros H. unfold JS.or_else. by rewrite H. Qed.

Lemma valid_status_or_else v :
  (forall s, JS.truthy v = Some s -> s ∈ TaskModel.statuses) ->
  TaskModel.valid_status (JS.or_else v "pending") = true.
Proof.
  intros H. unfold TaskModel.valid_status. apply bool_decide_eq_true.
  destruct (JS.truthy v) as [s|] eqn:E.
  - rewrite (or_else_truthy _ _ _ E). by apply H.
  - rewrite (or_else_default _ _ E). unfold TaskModel.statuses. set_solver.
Qed.

Lemma valid_priority_or_else v :
  (forall s, JS.truthy v = Some s -> s ∈ TaskModel.priorities) ->
  TaskModel.valid_priority (JS.or_else v "medium") = true.
Proof.
  intros H. unfold TaskModel.valid_priority. apply bool_decide_eq_true.
  destruct (JS.truthy v) as [s|] eqn:E.
  - rewrite (or_else_truthy _ _ _ E). by apply H.
  - rewrite (or_else_default _ _ E). unfold TaskModel.priorities. set_solver.
Qed.

(** C6, as amended.  POST /tasks by an authenticated caller.  When [title],
    [description] or [dueDate] is missing (absent or empty) the answer is
    400 "Missing required fields" and the database is unchanged.
    Otherwise, when [dueDate] is a date and a given [status] or [priority]
    is one the schema lists, the answer is 201 with a task stored under
    the ObjectId drawn for it (a new one, as ObjectIds are), owned by the
    caller, carrying the given title, description and due date, with status
    "pending" and priority "medium" when these are omitted and the given
    ones when they are not. *)
Theorem create_task_validates_and_defaults P body user db :
  (JS.truthy (body !! "title") = None
   \/ JS.truthy (body !! "description") = None
   \/ JS.truthy (body !! "dueDate") = None ->
   post_tasks P body user db
   = (respond 400 (JError "Missing required fields"), db))
  /\ (forall title description dueDate due,
         JS.truthy (body !! "title") = Some title ->
         JS.truthy (body !! "description") = Some description ->
         JS.truthy (body !! "dueDate") = Some dueDate ->
         Date_parse P dueDate = Some due ->
         (forall v, JS.truthy (body !! "status") = Some v ->
                    v ∈ TaskModel.statuses) ->
         (forall v, JS.truthy (body !! "priority") = Some v ->
                    v ∈ TaskModel.priorities) ->
         Tasks db !! ObjectId_new P = None ->
         exists task,
           post_tasks P body user db
           = (respond 201 (JTask task),
              {| Users := Users db;
                 Tasks := <[task_id task := task]> (Tasks db) |})
           /\ task_id task = ObjectId_new P
           /\ task_userId task = payload_id user
           /\ task_title task = title
           /\ task_description task = description
           /\ task_dueDate task = due
           /\ task_reminderDate task = None
           /\ (JS.truthy (body !! "status") = None ->
               task_status task = "pending")
           /\ (JS.truthy (body !! "priority") = None ->
               task_priority task = "medium")
           /\ (forall v, JS.truthy (body !! "status") = Some v ->
                         task_status task = v)
           /\ (forall v, JS.truthy (body !! "priority") = Some v ->
                         task_priority task = v)).
Proof.
  split.
  - intros H. unfold post_tasks.
    destruct (JS.truthy (body !! "title")) as [title|];
      destruct (JS.truthy (body !! "description")) as [description|];
      destruct (JS.truthy (body !! "dueDate")) as [dueDate|];
      try reflexivity.
    destruct H as [H|[H|H]]; discriminate.
  - intros title description dueDate due Ht Hd Hdue Hdate Hs Hp Hnew.
    unfold post_tasks. rewrite Ht, Hd, Hdue, Hdate.
    unfold TaskModel.save_new.
    apply truthy_Some in Ht as [_ Ht]. apply truthy_Some in Hd as [_ Hd].
    assert (Ev : TaskModel.valid_title title
                 && TaskModel.valid_description description
                 && TaskModel.valid_status (JS.or_else (body !! "status") "pending")
                 && TaskModel.valid_priority (JS.or_else (body !! "priority") "medium")
                 = true).
    { rewrite (valid_status_or_else _ Hs), (valid_priority_or_else _ Hp).
      unfold TaskModel.valid_title, TaskModel.valid_description.
      destruct (String.eqb_spec title ""); [done|].
      destruct (String.eqb_spec description ""); done. }
    rewrite Ev. simpl. rewrite Hnew.
    eexists (mkTask (ObjectId_new P) _ _ _ _ _ _ _).
    split; [reflexivity|]. simpl.
    split_and!; try done.
    + intros E. by apply or_else_default.
    + intros E. by apply or_else_default.
    + intros v E. by apply or_else_truthy.
    + intros v E. by apply or_else_truthy.
Qed.

(** ** Task routes: list *)

Lemma matches_spec q t :
  TaskModel.matches q t = true <->
  task_userId t = TaskModel.q_userId q
  /\ (forall v, TaskModel.q_status q = Some v -> task_status t = v)
  /\ (forall v, TaskModel.q_priority q = Some v -> task_priority t = v).
Proof.
  unfold TaskModel.matches. rewrite !andb_true_iff, bool_decide_eq_true.
  destruct (TaskModel.q_status q) as [s|], (TaskModel.q_priority q) as [p|];
    rewrite ?bool_decide_eq_true; split.
  all: try (intros [[Ho Hs] Hp]; split_and!; [done|intros v E|intros v E];
            congruence).
  all: intros (Ho & Hs & Hp); split_and!; auto.
Qed.

(** C7.  GET /tasks by an authenticated caller, with any query.  The
    answer is 200 with a list that holds, once each, exactly the stored
    tasks that the caller owns and that have the status and the priority
    the query gives (a filter that is absent or empty selects nothing
    away); the list is in ascending order of [dueDate], and in descending
    order when [sort] is "desc"; it is empty when no task qualifies; and
    the database is unchanged. *)
Theorem list_tasks_scoped_filtered_sorted query user db :
  exists (tasks : list Task) (docs : list (N * Task)),
    get_tasks query user db = (respond 200 (JTasks tasks), db)
    /\ NoDup docs.*1
    /\ (forall i t,
           (i, t) ∈ docs <-> Tasks db !! i = Some t /\ selected query user t)
    /\ tasks ≡ₚ docs.*2
    /\ (query !! "sort" = Some "desc" ->
        StronglySorted TaskModel.due_ge tasks)
    /\ (query !! "sort" <> Some "desc" ->
        StronglySorted TaskModel.due_le tasks)
    /\ ((forall i t, Tasks db !! i = Some t -> ~ selected query user t) ->
        tasks = []).
Proof.
  set (q := {| TaskModel.q_userId := payload_id user;
               TaskModel.q_status := JS.truthy (query !! "status");
               TaskModel.q_priority := JS.truthy (query !! "priority") |}).
  set (docs := map_to_list
                 (filter (λ kv : N * Task, TaskModel.matches q kv.2 = true)
                    (Tasks db))).
  exists (TaskModel.sort_dueDate
            (if decide (query !! "sort" = Some "desc") then -1 else 1)
            docs.*2), docs.
  assert (Hdocs : forall i t,
             (i, t) ∈ docs <-> Tasks db !! i = Some t /\ selected query user t).
  { intros i t. unfold docs.
    rewrite elem_of_map_to_list, map_lookup_filter_Some. simpl.
    rewrite matches_spec. unfold q. simpl. reflexivity. }
  split_and!.
  - reflexivity.
  - apply NoDup_fst_map_to_list.
  - exact Hdocs.
  - unfold TaskModel.sort_dueDate.
    case_decide; apply merge_sort_Permutation.
  - intros E. unfold TaskModel.sort_dueDate.
    destruct (decide (query !! "sort" = Some "desc")); [|done].
    destruct (decide (-1 = -1)); [|done].
    apply StronglySorted_merge_sort; apply _.
  - intros E. unfold TaskModel.sort_dueDate.
    destruct (decide (query !! "sort" = Some "desc")); [done|].
    destruct (decide (1 = -1)); [done|].
    apply StronglySorted_merge_sort; apply _.
  - intros Hnone.
    assert (E : docs = []).
    { destruct docs as [|[i t] l]; [done|].
      assert (Hin : (i, t) ∈ (i, t) :: l) by left.
      apply Hdocs in Hin as [Hi Hsel]. by destruct (Hnone i t Hi). }
    rewrite E. simpl. unfold TaskModel.sort_dueDate. by case_decide.
Qed.

(** ** Normalisation of emails *)

Lemma is_white_lower_char c : JS.is_white (JS.lower_char c) = JS.is_white c.
Proof. by destruct c as [[] [] [] [] [] [] [] []]. Qed.

Lemma lower_char_idem c : JS.lower_char (JS.lower_char c) = JS.lower_char c.
Proof. by destruct c as [[] [] [] [] [] [] [] []]. Qed.

Lemma toLowerCase_idem s : JS.toLowerCase (JS.toLowerCase s) = JS.toLowerCase s.
Proof.
  induction s as [|c s IH]; simpl; [done|]. by rewrite lower_char_idem, IH.
Qed.

Lemma toLowerCase_trim_start s :
  JS.toLowerCase (JS.trim_start s) = JS.trim_start (JS.toLowerCase s).
Proof.
  induction s as [|c s IH]; simpl; [done|].
  rewrite is_white_lower_char. by destruct (JS.is_white c).
Qed.

Lemma toLowerCase_trim_end s :
  JS.toLowerCase (JS.trim_end s) = JS.trim_end (JS.toLowerCase s).
Proof.
  induction s as [|c s IH]; simpl; [done|].
  rewrite <- IH, is_white_lower_char.
  destruct (JS.trim_end s) as [|c' r]; simpl; [|done].
  by destruct (JS.is_white c).
Qed.

Lemma toLowerCase_trim s : JS.toLowerCase (JS.trim s) = JS.trim (JS.toLowerCase s).
Proof.
  unfold JS.trim. by rewrite toLowerCase_trim_end, toLowerCase_trim_start.
Qed.

Lemma trim_end_idem s : JS.trim_end (JS.trim_end s) = JS.trim_end s.
Proof.
  induction s as [|c s IH]; simpl; [done|].
  destruct (JS.trim_end s) as [|c' r] eqn:E.
  - destruct (JS.is_white c) eqn:Ec; simpl; [done|]. by rewrite Ec.
  - change (JS.trim_end (String c (String c' r))) with
      (match JS.trim_end (String c' r) with
       | EmptyString => if JS.is_white c then "" else String c ""
       | r' => String c r'
       end).
    by rewrite IH.
Qed.

Lemma trim_start_black s : starts_black (JS.trim_start s).
Proof.
  unfold starts_black. induction s as [|c s IH]; simpl; [done|].
  destruct (JS.is_white c) eqn:E; [done|]. simpl. by rewrite E.
Qed.

Lemma trim_end_black s : starts_black s -> starts_black (JS.trim_end s).
Proof.
  unfold starts_black. destruct s as [|c s]; simpl; [done|].
  destruct (JS.is_white c) eqn:E.
  - intros H. exfalso.
    assert (Hl : (String.length (JS.trim_start s) <= String.length s)%nat).
    { clear. induction s as [|c s IH]; simpl; [lia|].
      destruct (JS.is_white c); simpl; lia. }
    rewrite H in Hl. simpl in Hl. lia.
  - intros _. destruct (JS.trim_end s); simpl; by rewrite E.
Qed.

Lemma trim_idem s : JS.trim (JS.trim s) = JS.trim s.
Proof.
  unfold JS.trim.
  rewrite (trim_end_black _ (trim_start_black s)). apply trim_end_idem.
Qed.

Lemma set_email_idem e :
  UserModel.set_email (UserModel.set_email e) = UserModel.set_email e.
Proof.
  unfold UserModel.set_email.
  by rewrite toLowerCase_trim, trim_idem, toLowerCase_idem.
Qed.

(** ** Registration *)

Lemma findOne_email_None email db :
  UserModel.findOne_email email db = None <->
  filter (λ kv : N * User, user_email kv.2 = UserModel.set_email email)
    (Users db) = ∅.
Proof.
  unfold UserModel.findOne_email. rewrite <- map_to_list_empty_iff.
  destruct (map_to_list _) as [|kv l]; simpl; split; done.
Qed.

Lemma findOne_email_taken email db i u :
  Users db !! i = Some u ->
  user_email u = UserModel.set_email email ->
  exists existing, UserModel.findOne_email email db = Some existing.
Proof.
  intros Hu He.
  destruct (UserModel.findOne_email email db) as [x|] eqn:E; [eauto|].
  apply findOne_email_None in E.
  by destruct (map_filter_empty_not_lookup _ _ i u E He).
Qed.

Lemma findOne_email_free email db i u :
  UserModel.findOne_email email db = None ->
  Users db !! i = Some u ->
  user_email u <> UserModel.set_email email.
Proof.
  intros E Hu He. destruct (findOne_email_taken _ _ _ _ Hu He) as [x Hx].
  congruence.
Qed.

(** A save that succeeds inserts one user, under a new id, whose email is
    the one of the document and is not the email of a stored user. *)
Lemma save_Ok P u db u' db' :
  UserModel.save P u db = Ok (u', db') ->
  UserModel.validate u = true
  /\ u' = UserModel.timestamps P (UserModel.pre_save P u)
  /\ Users db !! user_id u = None
  /\ (forall j v, Users db !! j = Some v -> user_email v <> user_email u)
  /\ db' = {| Users := <[user_id u := u']> (Users db); Tasks := Tasks db |}.
Proof.
  unfold UserModel.save. destruct (UserModel.validate u); [|done].
  unfold UserModel.insert. simpl.
  destruct (Users db !! user_id u) eqn:Ei; [done|].
  case_decide as Hf; [|done].
  intros [= <- <-]. split_and!; try done.
  intros j v Hv He. by destruct (map_filter_empty_not_lookup _ _ j v Hf He).
Qed.

Lemma save_new_Ok P P0 name email password db :
  UserModel.validate (UserModel.new P0 name email password) = true ->
  UserModel.findOne_email email db = None ->
  Users db !! ObjectId_new P0 = None ->
  UserModel.save P (UserModel.new P0 name email password) db
  = Ok (UserModel.timestamps P
          (UserModel.pre_save P (UserModel.new P0 name email password)),
        {| Users := <[ObjectId_new P0 :=
                       UserModel.timestamps P
                         (UserModel.pre_save P
                            (UserModel.new P0 name email password))]>
                      (Users db);
           Tasks := Tasks db |}).
Proof.
  intros Hv Hf Hi. unfold UserModel.save. rewrite Hv.
  unfold UserModel.insert. simpl. rewrite Hi.
  apply findOne_email_None in Hf. by rewrite decide_True.
Qed.


Lemma save_short_password P u db :
  (String.length (user_password u) < 6)%nat ->
  UserModel.save P u db = Throw ValidationError.
Proof.
  intros H. unfold UserModel.save, UserModel.validate.
  replace (6 <=? String.length (user_password u))%nat with false.
  - by rewrite andb_false_r.
  - symmetry. apply Nat.leb_gt. exact H.
Qed.

(** What [POST /auth/register] does once its three fields are present. *)
Lemma post_auth_register_present P body db name email password :
  JS.truthy (body !! "name") = Some name ->
  JS.truthy (body !! "email") = Some email ->
  JS.truthy (body !! "password") = Some password ->
  post_auth_register P body db
  = match UserModel.findOne_email email db with
    | Some existingUser => (respond 400 (JError "Email already in use"), db)
    | None =>
        match UserModel.save P (UserModel.new P name email password) db with
        | Ok (newUser, db') =>
            (respond 201
               (JRegistered "User registered successfully" (user_id newUser)
                  (user_name newUser) (user_email newUser)
                  (jwt_sign P (user_id newUser))), db')
        | Throw error =>
            (respond 500 (JError "Server error during registration"), db)
        end
    end.
Proof. intros Hn He Hp. unfold post_auth_register. by rewrite Hn, He, Hp. Qed.

(** The handler is its two halves run without anything in between. *)
Lemma post_auth_register_halves P body db :
  post_auth_register P body db
  = register_save P (register_lookup P body db) db.
Proof.
  unfold post_auth_register, register_lookup.
  destruct (JS.truthy (body !! "name")) as [name|]; [|done].
  destruct (JS.truthy (body !! "email")) as [email|]; [|done].
  destruct (JS.truthy (body !! "password")) as [password|]; [|done].
  by destruct (UserModel.findOne_email email db).
Qed.

Lemma register_lookup_present P body db name email password :
  JS.truthy (body !! "name") = Some name ->
  JS.truthy (body !! "email") = Some email ->
  JS.truthy (body !! "password") = Some password ->
  UserModel.findOne_email email db = None ->
  register_lookup P body db = inr (UserModel.new P name email password).
Proof.
  intros Hn He Hp Hf. unfold register_lookup. by rewrite Hn, He, Hp, Hf.
Qed.

Lemma register_lookup_inr P body db newUser :
  register_lookup P body db = inr newUser ->
  exists name email password,
    JS.truthy (body !! "password") = Some password
    /\ newUser = UserModel.new P name email password.
Proof.
  unfold register_lookup.
  destruct (JS.truthy (body !! "name")) as [name|]; [|done].
  destruct (JS.truthy (body !! "email")) as [email|]; [|done].
  destruct (JS.truthy (body !! "password")) as [password|]; [|done].
  destruct (UserModel.findOne_email email db); [done|].
  intros [= <-]. by exists name, email, password.
Qed.

(** The second half either leaves the database alone or adds the pending
    document as one user, whose email is not yet stored. *)
Lemma register_save_effect P newUser db :
  (register_save P (inr newUser) db).2 = db
  \/ exists u,
      UserModel.save P newUser db
      = Ok (u, {| Users := <[user_id newUser := u]> (Users db);
                  Tasks := Tasks db |})
      /\ (register_save P (inr newUser) db).2
         = {| Users := <[user_id newUser := u]> (Users db); Tasks := Tasks db |}.
Proof.
  unfold register_save.
  destruct (UserModel.save P newUser db) as [[u db']|e] eqn:E; [|by left].
  right. pose proof E as E'. apply save_Ok in E' as (_ & _ & _ & _ & ->).
  by exists u.
Qed.

(** Registration either leaves the database alone or adds one user whose
    email is normalised and not yet stored. *)
Lemma post_auth_register_effect P body db :
  (post_auth_register P body db).2 = db
  \/ exists i u email,
      (post_auth_register P body db).2
      = {| Users := <[i := u]> (Users db); Tasks := Tasks db |}
      /\ Users db !! i = None
      /\ user_email u = UserModel.set_email email
      /\ (forall j v, Users db !! j = Some v -> user_email v <> user_email u).
Proof.
  unfold post_auth_register.
  destruct (JS.truthy (body !! "name")) as [name|]; [|by left].
  destruct (JS.truthy (body !! "email")) as [email|]; [|by left].
  destruct (JS.truthy (body !! "password")) as [password|]; [|by left].
  destruct (UserModel.findOne_email email db); [by left|].
  destruct (UserModel.save P _ db) as [[u' db']|e] eqn:E; [|by left].
  right. apply save_Ok in E as (_ & -> & Hi & Hf & ->).
  exists (ObjectId_new P),
    (UserModel.timestamps P
       (UserModel.pre_save P (UserModel.new P name email password))),
    email.
  simpl. split_and!; done.
Qed.

(** Only registration writes to the user collection. *)
Lemma protected_keeps_users P handler auth db :
  (forall user, Users (handler user db).2 = Users db) ->
  Users (protected P handler auth db).2 = Users db.
Proof.
  intros H. unfold protected.
  destruct (authenticateToken P auth db); [done|apply H].
Qed.

Lemma handle_keeps_users P req db :
  (forall body, req <> PostAuthRegister body) ->
  Users (handle P req db).2 = Users db.
Proof.
  intros Hreq. destruct req as [b|b|a b|a q|a i|a i b|a i|a i b]; simpl.
  - by destruct (Hreq b).
  - unfold post_auth_login.
    destruct (JS.truthy (b !! "email")); [|done].
    destruct (JS.truthy (b !! "password")); [|done].
    destruct (UserModel.findOne_email _ db); [|done].
    by destruct (UserModel.comparePassword P _ _).
  - apply protected_keeps_users. intros user. unfold post_tasks.
    destruct (JS.truthy (b !! "title")); [|done].
    destruct (JS.truthy (b !! "description")); [|done].
    destruct (JS.truthy (b !! "dueDate")); [|done].
    unfold TaskModel.save_new. destruct (Date_parse P _); [|done].
    destruct (_ && _); [|done]. simpl.
    by destruct (Tasks db !! ObjectId_new P).
  - apply protected_keeps_users. done.
  - apply protected_keeps_users. intros user. unfold get_task.
    by destruct (TaskModel.findOne i (payload_id user) db) as [[t|]|e].
  - apply protected_keeps_users. intros user. unfold put_task.
    destruct (TaskModel.findOneAndUpdate P i (payload_id user) (update_of b) db)
      as [[[t|] db']|e] eqn:E; try done.
    unfold TaskModel.findOneAndUpdate in E.
    destruct (ObjectIds.cast i); [|done].
    destruct (TaskModel.castUpdate P (update_of b)); [|done].
    destruct (TaskModel.validateUpdate _); [|done].
    destruct (Tasks db !! _); [|done].
    case_decide; [|done]. by injection E as _ <-.
  - apply protected_keeps_users. intros user. unfold delete_task.
    destruct (TaskModel.findOneAndDelete i (payload_id user) db)
      as [[[t|] db']|e] eqn:E; try done.
    unfold TaskModel.findOneAndDelete in E.
    destruct (ObjectIds.cast i); [|done].
    destruct (Tasks db !! _); [|done].
    case_decide; [|done]. by injection E as _ <-.
  - apply protected_keeps_users. intros user. unfold post_task_reminder.
    destruct (JS.truthy (b !! "reminderDate")); [|done].
    destruct (TaskModel.findOne i (payload_id user) db) as [[t|]|e]; try done.
    unfold TaskModel.save_reminder. by destruct (Date_parse P _).
Qed.

Lemma emails_invariant_insert db i u email :
  normalized_emails db -> unique_emails db ->
  Users db !! i = None ->
  user_email u = UserModel.set_email email ->
  (forall j v, Users db !! j = Some v -> user_email v <> user_email u) ->
  normalized_emails {| Users := <[i := u]> (Users db); Tasks := Tasks db |}
  /\ unique_emails {| Users := <[i := u]> (Users db); Tasks := Tasks db |}.
Proof.
  intros Hn Hu Hi He Hf.
  assert (Hnu : UserModel.set_email (user_email u) = user_email u).
  { by rewrite He, set_email_idem. }
  split.
  - intros j v. simpl. rewrite lookup_insert.
    case_decide; [intros [= <-]; done|apply Hn].
  - intros j k v w. simpl. rewrite !lookup_insert.
    case_decide as Ej; case_decide as Ek; subst.
    + done.
    + intros [= <-] Hw E. rewrite Hnu, (Hn _ _ Hw) in E.
      by destruct (Hf _ _ Hw).
    + intros Hv [= <-] E. rewrite Hnu, (Hn _ _ Hv) in E.
      by destruct (Hf _ _ Hv).
    + apply Hu.
Qed.

Lemma reachable_emails ok db :
  reachable_on ok db -> normalized_emails db /\ unique_emails db.
Proof.
  induction 1 as [|P req db _ Hr [Hn Hu]
                  |P0 P body db0 db newUser _ _ _ _ Hr [Hn Hu] Hl].
  3: { destruct (register_save_effect P newUser db) as [->|(u & Hs & ->)];
         [done|].
       apply register_lookup_inr in Hl as (name & email & password & _ & ->).
       apply save_Ok in Hs as (_ & -> & Hi & Hf & _).
       by apply (emails_invariant_insert _ _ _ email). }
  - split; [intros i u|intros i j u v]; simpl; by rewrite lookup_empty.
  - destruct req as [b|b|a b|a q|a i|a i b|a i|a i b].
    1: { simpl. destruct (post_auth_register_effect P b db)
           as [->|(i & u & email & -> & Hi & He & Hf)]; [done|].
         by apply (emails_invariant_insert _ _ _ email). }
    all: unfold normalized_emails, unique_emails;
      rewrite handle_keeps_users by done; done.
Qed.

Lemma findOne_email_unused email db :
  (forall i u, Users db !! i = Some u ->
               user_email u <> UserModel.set_email email) ->
  UserModel.findOne_email email db = None.
Proof.
  intros H. destruct (UserModel.findOne_email email db) as [x|] eqn:E; [|done].
  exfalso. unfold UserModel.findOne_email in E.
  destruct (map_to_list _) as [|[i u] l] eqn:El; [done|].
  assert (Hin : (i, u) ∈ (i, u) :: l) by left.
  rewrite <- El in Hin.
  apply elem_of_map_to_list, map_lookup_filter_Some in Hin as [Hu He].
  by destruct (H i u Hu).
Qed.

Lemma validate_new P name email password :
  JS.trim name <> "" ->
  UserModel.set_email email <> "" ->
  (6 <= String.length password)%nat ->
  UserModel.validate (UserModel.new P name email password) = true.
Proof.
  intros Hn He Hp. unfold UserModel.validate, UserModel.new. simpl.
  unfold UserModel.set_name.
  destruct (String.eqb_spec (JS.trim name) ""); [done|].
  destruct (String.eqb_spec (UserModel.set_email email) ""); [done|].
  destruct (String.eqb_spec password "") as [->|_]; [simpl in Hp; lia|].
  apply Nat.leb_le in Hp. exact Hp.
Qed.

(** C3, as amended.  (1) In every database the server can reach, each
    stored email is in normal form (trimmed, lower case) and no two users
    have the same normalised email.  (2) A registration whose three fields
    are present and whose normalised email is the email of a stored user is
    answered 400 "Email already in use" and stores nothing.  (3) Of two
    registrations with the same normalised email and their three fields
    present, made when no user has that email, the one that saves first, if
    it passes the model's validators (name and email not blank, password of
    6 characters or more) and its ObjectId is new, is answered 201 and adds
    one user with the normalised email and the hashed password; the other
    adds none and is not answered 201, whether its lookup ran after that
    save or before it; and when its lookup ran after that save, it is
    answered 400 "Email already in use". *)
Theorem registration_keeps_emails_unique :
  (forall db, reachable db -> normalized_emails db /\ unique_emails db)
  /\ (forall P body db name email password i existing,
         JS.truthy (body !! "name") = Some name ->
         JS.truthy (body !! "email") = Some email ->
         JS.truthy (body !! "password") = Some password ->
         Users db !! i = Some existing ->
         UserModel.set_email email = user_email existing ->
         post_auth_register P body db
         = (respond 400 (JError "Email already in use"), db))
  /\ (forall P1 P2 body1 body2 db name1 email1 password1 name2 email2 password2,
         JS.truthy (body1 !! "name") = Some name1 ->
         JS.truthy (body1 !! "email") = Some email1 ->
         JS.truthy (body1 !! "password") = Some password1 ->
         JS.truthy (body2 !! "name") = Some name2 ->
         JS.truthy (body2 !! "email") = Some email2 ->
         JS.truthy (body2 !! "password") = Some password2 ->
         UserModel.set_email email1 = UserModel.set_email email2 ->
         (forall i u, Users db !! i = Some u ->
                      user_email u <> UserModel.set_email email1) ->
         JS.trim name1 <> "" ->
         UserModel.set_email email1 <> "" ->
         (6 <= String.length password1)%nat ->
         Users db !! ObjectId_new P1 = None ->
         exists u db1,
           post_auth_register P1 body1 db
           = (respond 201
                (JRegistered "User registered successfully" (user_id u)
                   (user_name u) (user_email u) (jwt_sign P1 (user_id u))),
              db1)
           /\ Users db !! user_id u = None
           /\ Users db1 = <[user_id u := u]> (Users db)
           /\ Tasks db1 = Tasks db
           /\ user_email u = UserModel.set_email email1
           /\ user_password u = bcrypt_hash P1 password1
           /\ post_auth_register P2 body2 db1
              = (respond 400 (JError "Email already in use"), db1)
           /\ exists res2,
               register_interleaved P1 P2 body1 body2 db
               = ((respond 201
                     (JRegistered "User registered successfully" (user_id u)
                        (user_name u) (user_email u)
                        (jwt_sign P1 (user_id u))),
                   res2), db1)
               /\ res_status res2 <> 201).
Proof.
  split_and!.
  - apply reachable_emails.
  - intros P body db name email password i existing Hn He Hp Hi Hem.
    rewrite (post_auth_register_present _ _ _ _ _ _ Hn He Hp).
    destruct (findOne_email_taken email db i existing Hi (eq_sym Hem))
      as [x ->].
    reflexivity.
  - intros P1 P2 body1 body2 db name1 email1 password1 name2 email2 password2
      Hn1 He1 Hp1 Hn2 He2 Hp2 Hsame Hfree Hname Hemail Hpass Hnew.
    set (u := UserModel.timestamps P1
                (UserModel.pre_save P1
                   (UserModel.new P1 name1 email1 password1))).
    set (db1 := {| Users := <[ObjectId_new P1 := u]> (Users db);
                   Tasks := Tasks db |}).
    assert (Hfree2 : forall i v, Users db !! i = Some v ->
                                 user_email v <> UserModel.set_email email2).
    { by rewrite <- Hsame. }
    assert (Hsave : UserModel.save P1 (UserModel.new P1 name1 email1 password1) db
                    = Ok (u, db1)).
    { apply save_new_Ok;
        [by apply validate_new|by apply findOne_email_unused|done]. }
    assert (Hu : Users db1 !! ObjectId_new P1 = Some u).
    { unfold db1. simpl. apply lookup_insert_eq. }
    exists u, db1.
    rewrite (post_auth_register_present _ _ _ _ _ _ Hn1 He1 Hp1).
    rewrite (findOne_email_unused _ _ Hfree). rewrite Hsave.
    split_and!; try done.
    + rewrite (post_auth_register_present _ _ _ _ _ _ Hn2 He2 Hp2).
      assert (Hue : user_email u = UserModel.set_email email2).
      { rewrite <- Hsame. done. }
      destruct (findOne_email_taken email2 db1 _ u Hu Hue) as [x ->].
      reflexivity.
    + unfold register_interleaved.
      rewrite (register_lookup_present _ _ _ _ _ _ Hn1 He1 Hp1
                 (findOne_email_unused _ _ Hfree)).
      rewrite (register_lookup_present _ _ _ _ _ _ Hn2 He2 Hp2
                 (findOne_email_unused _ _ Hfree2)).
      simpl. rewrite Hsave.
      destruct (UserModel.save P2 (UserModel.new P2 name2 email2 password2) db1)
        as [[u2 db2]|e] eqn:E2.
      { apply save_Ok in E2 as (_ & _ & _ & Hfree1 & _).
        destruct (Hfree1 _ u Hu). simpl. by rewrite Hsame. }
      eexists. split; [reflexivity|done].
Qed.

(** C10, as amended.  A registration whose password has fewer than 6
    characters never adds a user: the model rejects the save with a
    validation error.  When the request reaches the save, that is, when
    name, email and a non-empty password are present and the email is not
    registered yet, the answer is 500 "Server error during registration". *)
Theorem short_password_is_server_error P body db password :
  body !! "password" = Some password ->
  (String.length password < 6)%nat ->
  (post_auth_register P body db).2 = db
  /\ (forall name email,
         UserModel.save P (UserModel.new P name email password) db
         = Throw ValidationError)
  /\ (forall name email,
         JS.truthy (body !! "name") = Some name ->
         JS.truthy (body !! "email") = Some email ->
         password <> "" ->
         (forall i u, Users db !! i = Some u ->
                      user_email u <> UserModel.set_email email) ->
         post_auth_register P body db
         = (respond 500 (JError "Server error during registration"), db)).
Proof.
  intros Hpw Hlen.
  assert (Hsave : forall name email,
             UserModel.save P (UserModel.new P name email password) db
             = Throw ValidationError).
  { intros name email. by apply save_short_password. }
  split_and!.
  - unfold post_auth_register. rewrite Hpw.
    destruct (JS.truthy (body !! "name")) as [name|]; [|done].
    destruct (JS.truthy (body !! "email")) as [email|]; [|done].
    destruct (JS.truthy (Some password)) as [pw|] eqn:E; [|done].
    apply truthy_Some in E as [[= <-] _].
    destruct (UserModel.findOne_email email db); [done|].
    by rewrite Hsave.
  - exact Hsave.
  - intros name email Hn He Hne Hfree.
    rewrite (post_auth_register_present _ _ _ name email password Hn He).
    + by rewrite (findOne_email_unused _ _ Hfree), Hsave.
    + rewrite Hpw. by apply truthy_nonempty.
Qed.

(** * The routes run on the demo platform *)

(** Against C4 as worded.  The verifier throws [TokenExpiredError] for the
    first token and [JsonWebTokenError] for the second, and the guard gives
    the two requests the same answer; so it is not true that the two kinds
    of failure can always be told apart in what the caller receives. *)
Lemma failures_not_distinguishable :
  jwt_verify Demo.platform "token-old" = TokenExpiredError
  /\ jwt_verify Demo.platform "garbage" = JsonWebTokenError
  /\ authenticateToken Demo.platform (Some "Bearer token-old") Demo.db
     = authenticateToken Demo.platform (Some "Bearer garbage") Demo.db
  /\ ~ (forall P auth1 auth2 token1 token2 db,
          JS.truthy (token_of auth1) = Some token1 ->
          JS.truthy (token_of auth2) = Some token2 ->
          jwt_verify P token1 = TokenExpiredError ->
          jwt_verify P token2 = JsonWebTokenError ->
          authenticateToken P auth1 db <> authenticateToken P auth2 db).
Proof.
  split_and!; try reflexivity.
  intros H.
  apply (H Demo.platform (Some "Bearer token-old") (Some "Bearer garbage")
           "token-old" "garbage" Demo.db); reflexivity.
Qed.

(** Against C3 as worded.  Two registrations with the same normalised
    email, both with a password of three characters, sent one after the
    other to the empty database: both are answered 500 and none succeeds.
    A registration followed by one with the same email and no name: the
    second is answered 400 "Please provide name, email, and password".
    Two registrations with the same normalised email that pass the
    validators, both looked up before either saves: the first is answered
    201 and the second 500 "Server error during registration", not 400
    "Email already in use".  So it is not true that of every such pair one
    succeeds and the other is answered "Email already in use", neither for
    pairs made one after the other nor for valid pairs that interleave. *)
Lemma two_attempts_none_succeeds :
  serve
    [ (Demo.platform,
       PostAuthRegister
         (<["name" := "Cat"]>
            (<["email" := "Cat@X.com"]> {[ "password" := "abc" ]})));
      (Demo.platform,
       PostAuthRegister
         (<["name" := "Cat"]>
            (<["email" := "cat@x.com"]> {[ "password" := "abc" ]}))) ]
    {| Users := ∅; Tasks := ∅ |}
  = ([ respond 500 (JError "Server error during registration");
       respond 500 (JError "Server error during registration") ],
     {| Users := ∅; Tasks := ∅ |})
  /\ (serve
        [ (Demo.platform_drawing Demo.ann,
           PostAuthRegister
             (<["name" := "Cat"]>
                (<["email" := "cat@x.com"]> {[ "password" := "secret3" ]})));
          (Demo.platform,
           PostAuthRegister
             (<["email" := "cat@x.com"]> {[ "password" := "secret3" ]})) ]
        {| Users := ∅; Tasks := ∅ |}).1
     = [ respond 201
           (JRegistered "User registered successfully" Demo.ann "Cat"
              "cat@x.com" "token-ann");
         respond 400 (JMessage "Please provide name, email, and password") ]
  /\ (register_interleaved
        (Demo.platform_drawing Demo.ann) (Demo.platform_drawing Demo.bob)
        (<["name" := "Cat"]>
           (<["email" := "Cat@X.com"]> {[ "password" := "secret3" ]}))
        (<["name" := "Kat"]>
           (<["email" := " cat@x.com"]> {[ "password" := "secret4" ]}))
        {| Users := ∅; Tasks := ∅ |}).1
     = (respond 201
          (JRegistered "User registered successfully" Demo.ann "Cat"
             "cat@x.com" "token-ann"),
        respond 500 (JError "Server error during registration"))
  /\ ~ (forall P1 P2 db body1 body2 email1 email2,
          body1 !! "email" = Some email1 ->
          body2 !! "email" = Some email2 ->
          UserModel.set_email email1 = UserModel.set_email email2 ->
          exists r1 r2 db',
            serve [ (P1, PostAuthRegister body1); (P2, PostAuthRegister body2) ]
              db
            = ([ r1; r2 ], db')
            /\ one_succeeds_other_duplicate r1 r2)
  /\ ~ (forall P1 P2 db body1 body2 name1 email1 password1
                name2 email2 password2,
          JS.truthy (body1 !! "name") = Some name1 ->
          JS.truthy (body1 !! "email") = Some email1 ->
          JS.truthy (body1 !! "password") = Some password1 ->
          JS.truthy (body2 !! "name") = Some name2 ->
          JS.truthy (body2 !! "email") = Some email2 ->
          JS.truthy (body2 !! "password") = Some password2 ->
          UserModel.set_email email1 = UserModel.set_email email2 ->
          (forall i u, Users db !! i = Some u ->
                       user_email u <> UserModel.set_email email1) ->
          UserModel.validate (UserModel.new P1 name1 email1 password1) = true ->
          UserModel.validate (UserModel.new P2 name2 email2 password2) = true ->
          Users db !! ObjectId_new P1 = None ->
          ObjectId_new P2 <> ObjectId_new P1 ->
          exists r1 r2 db',
            register_interleaved P1 P2 body1 body2 db = ((r1, r2), db')
            /\ one_succeeds_other_duplicate r1 r2).
Proof.
  split_and!; [reflexivity|reflexivity|reflexivity| |].
  - intros H.
    destruct (H Demo.platform Demo.platform {| Users := ∅; Tasks := ∅ |}
                (<["name" := "Cat"]>
                   (<["email" := "Cat@X.com"]> {[ "password" := "abc" ]}))
                (<["name" := "Cat"]>
                   (<["email" := "cat@x.com"]> {[ "password" := "abc" ]}))
                "Cat@X.com" "cat@x.com")
      as (r1 & r2 & db' & Hs & Hr); [reflexivity|reflexivity|reflexivity|].
    vm_compute in Hs. injection Hs as <- <- _.
    destruct Hr as [[Hr _]|[Hr _]]; discriminate Hr.
  - intros H.
    destruct (H (Demo.platform_drawing Demo.ann) (Demo.platform_drawing Demo.bob)
                {| Users := ∅; Tasks := ∅ |}
                (<["name" := "Cat"]>
                   (<["email" := "Cat@X.com"]> {[ "password" := "secret3" ]}))
                (<["name" := "Kat"]>
                   (<["email" := " cat@x.com"]> {[ "password" := "secret4" ]}))
                "Cat" "Cat@X.com" "secret3" "Kat" " cat@x.com" "secret4")
      as (r1 & r2 & db' & Hs & Hr);
      [reflexivity|reflexivity|reflexivity|reflexivity|reflexivity
      |reflexivity|reflexivity
      |intros i u Hu; vm_compute in Hu; discriminate Hu
      |reflexivity|reflexivity|reflexivity|discriminate|].
    vm_compute in Hs. injection Hs as <- <- _.
    destruct Hr as [[_ Hr]|[Hr _]]; discriminate Hr.
Qed.

(** Against C1 as worded.  Bob updates Ann's task with a status the schema
    does not list: the answer is 500 "Error updating task", not 404 "Task
    not found" (the database is unchanged, and the answer is the one the
    request gets when the task does not exist); so it is not true that
    every update of a task of another owner is answered 404. *)
Lemma other_owner_invalid_update_is_500 :
  handle Demo.platform
    (PutTask (Some "Bearer token-bob") Demo.id1 {[ "status" := "bogus" ]})
    Demo.db
  = (respond 500 (JError "Error updating task"), Demo.db)
  /\ (handle Demo.platform
        (PutTask (Some "Bearer token-bob") Demo.id1 {[ "status" := "bogus" ]})
        (without 1%N Demo.db)).1
     = respond 500 (JError "Error updating task")
  /\ ~ (forall P auth db user id i t body,
          authenticateToken P auth db = inr user ->
          ObjectIds.cast id = Some i ->
          Tasks db !! i = Some t ->
          task_userId t <> payload_id user ->
          (handle P (PutTask auth id body) db).1
          = respond 404 (JError "Task not found")).
Proof.
  split_and!; [reflexivity|reflexivity|].
  intros H.
  assert (Hne : task_userId Demo.task1 <> Demo.bob) by discriminate.
  pose proof (H Demo.platform (Some "Bearer token-bob") Demo.db
                (mkPayload Demo.bob 0 86400) Demo.id1 1%N Demo.task1
                {[ "status" := "bogus" ]} eq_refl eq_refl eq_refl Hne) as E.
  vm_compute in E. discriminate E.
Qed.

(** Against C6 as worded.  Ann posts a task with title, description and a
    due date that is not a date, and one with a status the schema does not
    list: both are answered 500 "Error creating task" and nothing is
    stored; so it is not true that every request with the three required
    fields creates a task. *)
Lemma create_with_invalid_date_is_500 :
  post_tasks Demo.platform
    (<["title" := "Plan"]>
       (<["description" := "next week"]> {[ "dueDate" := "soon" ]}))
    (mkPayload Demo.ann 0 86400) Demo.db
  = (respond 500 (JError "Error creating task"), Demo.db)
  /\ post_tasks Demo.platform
       (<["title" := "Plan"]>
          (<["description" := "next week"]>
             (<["dueDate" := "2025-01-01"]> {[ "status" := "done" ]})))
       (mkPayload Demo.ann 0 86400) Demo.db
     = (respond 500 (JError "Error creating task"), Demo.db)
  /\ ~ (forall P body user db title description dueDate,
          JS.truthy (body !! "title") = Some title ->
          JS.truthy (body !! "description") = Some description ->
          JS.truthy (body !! "dueDate") = Some dueDate ->
          Tasks db !! ObjectId_new P = None ->
          exists task db',
            post_tasks P body user db = (respond 201 (JTask task), db')).
Proof.
  split_and!; [reflexivity|reflexivity|].
  intros H.
  destruct (H Demo.platform
              (<["title" := "Plan"]>
                 (<["description" := "next week"]> {[ "dueDate" := "soon" ]}))
              (mkPayload Demo.ann 0 86400) Demo.db
              "Plan" "next week" "soon")
    as (task & db' & E); [reflexivity|reflexivity|reflexivity|reflexivity|].
  vm_compute in E. discriminate E.
Qed.

(** Against C8 as worded.  Ann deletes the id "abc", under which she owns
    no task, twice: both calls are answered 500 "Error deleting task", not
    404 "Task not found"; so it is not true that every delete of an id
    under which the caller owns no task is answered 404. *)
Lemma delete_malformed_id_is_500 :
  serve (replicate 2 (Demo.platform, DeleteTask (Some "Bearer token-ann") "abc"))
    Demo.db
  = (replicate 2 (respond 500 (JError "Error deleting task")), Demo.db)
  /\ ~ (forall P auth db user id,
          authenticateToken P auth db = inr user ->
          (forall i, ObjectIds.cast id = Some i ->
                     not_owned i (payload_id user) db) ->
          handle P (DeleteTask auth id) db
          = (respond 404 (JError "Task not found"), db)).
Proof.
  split; [reflexivity|].
  intros H.
  assert (Hno : forall i, ObjectIds.cast "abc" = Some i ->
                          not_owned i Demo.ann Demo.db) by discriminate.
  pose proof (H Demo.platform (Some "Bearer token-ann") Demo.db
                (mkPayload Demo.ann 0 86400) "abc" eq_refl Hno) as E.
  vm_compute in E. discriminate E.
Qed.

(** Against C10 as worded.  A registration with name and email present
    and a password of three characters, for an email that is registered:
    the answer is 400 "Email already in use", not 500; and with the empty
    password, for an email that is not registered, it is 400 "Please
    provide name, email, and password"; so it is not true that every such
    request is answered 500. *)
Lemma short_password_taken_email_is_400 :
  post_auth_register Demo.platform
    (<["name" := "Ann B"]>
       (<["email" := "ann@x.com"]> {[ "password" := "abc" ]}))
    Demo.db
  = (respond 400 (JError "Email already in use"), Demo.db)
  /\ post_auth_register Demo.platform
       (<["name" := "Cat"]>
          (<["email" := "cat@x.com"]> {[ "password" := "" ]}))
       Demo.db
     = (respond 400 (JMessage "Please provide name, email, and password"),
        Demo.db)
  /\ ~ (forall P body db name email password,
          JS.truthy (body !! "name") = Some name ->
          JS.truthy (body !! "email") = Some email ->
          body !! "password" = Some password ->
          (String.length password < 6)%nat ->
          res_status (post_auth_register P body db).1 = 500).
Proof.
  split_and!; [reflexivity|reflexivity|].
  intros H.
  assert (Hlen : (String.length "abc" < 6)%nat) by (simpl; lia).
  pose proof (H Demo.platform
                (<["name" := "Ann B"]>
                   (<["email" := "ann@x.com"]> {[ "password" := "abc" ]}))
                Demo.db "Ann B" "ann@x.com" "abc"
                eq_refl eq_refl eq_refl Hlen) as E.
  discriminate E.
Qed.

Lemma guard_rejects_orphan_and_missing_token_witness :
  handle Demo.platform (DeleteTask (Some "Bearer token-gone") Demo.id1) Demo.db
  = (respond 401 (JError "Invalid token. User not found."), Demo.db)
  /\ handle Demo.platform (DeleteTask None Demo.id1) Demo.db
     = (respond 401 (JError "Access denied. No token provided."), Demo.db).
Proof.
  split.
  - apply (proj1 (guard_rejects_orphan_and_missing_token Demo.platform
                    (Some "Bearer token-gone") Demo.db)
             "token-gone" (mkPayload 77%N 0 86400));
      reflexivity.
  - apply (proj2 (guard_rejects_orphan_and_missing_token Demo.platform
                    None Demo.db));
      reflexivity.
Defined.

Lemma guard_merges_verification_failures_witness :
  authenticateToken Demo.platform (Some "Bearer token-old") Demo.db
  = inl (respond 400 (JError "Invalid or expired token."))
  /\ authenticateToken Demo.platform (Some "Bearer garbage") Demo.db
     = inl (respond 400 (JError "Invalid or expired token.")).
Proof.
  split.
  - apply (guard_merges_verification_failures Demo.platform
             (Some "Bearer token-old") Demo.db "token-old");
      [reflexivity|left; reflexivity].
  - apply (guard_merges_verification_failures Demo.platform
             (Some "Bearer garbage") Demo.db "garbage");
      [reflexivity|right; left; reflexivity].
Defined.

Lemma guard_ignores_scheme_witness :
  authenticateToken Demo.platform (Some "Basic token-ann") Demo.db
  = inr (mkPayload Demo.ann 0 86400)
  /\ authenticateToken Demo.platform (Some "token-ann") Demo.db
     = inl (respond 401 (JError "Access denied. No token provided.")).
Proof.
  split.
  - apply (proj1 (proj2 (guard_ignores_scheme Demo.platform Demo.db))
             "Basic" "token-ann" (mkPayload Demo.ann 0 86400) Demo.user_ann);
      [reflexivity|reflexivity|discriminate|reflexivity|reflexivity].
  - apply (proj2 (proj2 (guard_ignores_scheme Demo.platform Demo.db))
             "token-ann"); reflexivity.
Defined.

Lemma other_owner_is_not_found_witness :
  handle Demo.platform (GetTask (Some "Bearer token-bob") Demo.id1) Demo.db
  = (respond 404 (JError "Task not found"), Demo.db)
  /\ handle Demo.platform (DeleteTask (Some "Bearer token-bob") Demo.id1) Demo.db
     = (respond 404 (JError "Task not found"), Demo.db)
  /\ handle Demo.platform
       (PutTask (Some "Bearer token-bob") Demo.id1 {[ "status" := "completed" ]})
       Demo.db
     = (respond 404 (JError "Task not found"), Demo.db)
  /\ handle Demo.platform
       (PutTask (Some "Bearer token-bob") Demo.id1 {[ "status" := "bogus" ]})
       Demo.db
     = (respond 500 (JError "Error updating task"), Demo.db).
Proof.
  destruct (other_owner_is_not_found Demo.platform (Some "Bearer token-bob")
              Demo.db (mkPayload Demo.bob 0 86400) Demo.id1 1%N Demo.task1)
    as (Hget & Hdel & Hput & Hbad & _);
    [reflexivity|reflexivity|reflexivity|discriminate|].
  split_and!; [exact Hget|exact Hdel| |].
  - apply (Hput {[ "status" := "completed" ]}
             (TaskModel.mkCastUpdate None None (Some "completed") None None));
      reflexivity.
  - apply (Hbad {[ "status" := "bogus" ]}).
    intros cu Hcu. vm_compute in Hcu. injection Hcu as <-. reflexivity.
Defined.

Lemma delete_absent_is_not_found_witness :
  serve
    (replicate 3 (Demo.platform, DeleteTask (Some "Bearer token-ann") Demo.id9))
    Demo.db
  = (replicate 3 (respond 404 (JError "Task not found")), Demo.db)
  /\ serve
       (replicate 3 (Demo.platform, DeleteTask (Some "Bearer token-ann") Demo.id1))
       Demo.db
     = (respond 200 (JMessage "Task deleted successfully")
          :: replicate 2 (respond 404 (JError "Task not found")),
        without 1%N Demo.db).
Proof.
  destruct (delete_absent_is_not_found Demo.platform (Some "Bearer token-ann")
              Demo.db (mkPayload Demo.ann 0 86400) Demo.id9 9%N)
    as [Habsent _]; [reflexivity|reflexivity|].
  destruct (delete_absent_is_not_found Demo.platform (Some "Bearer token-ann")
              Demo.db (mkPayload Demo.ann 0 86400) Demo.id1 1%N)
    as [_ Hdeleted]; [reflexivity|reflexivity|].
  split.
  - apply Habsent. intros t Ht. discriminate Ht.
  - destruct (Hdeleted Demo.task1) as (db' & H1 & H2 & H3);
      [reflexivity|reflexivity|].
    change (replicate 3 (Demo.platform,
                         DeleteTask (Some "Bearer token-ann") Demo.id1))
      with ((Demo.platform, DeleteTask (Some "Bearer token-ann") Demo.id1)
              :: replicate 2 (Demo.platform,
                              DeleteTask (Some "Bearer token-ann") Demo.id1)).
    cbn [serve]. rewrite H1, (H3 2%nat).
    assert (E : db' = without 1%N Demo.db).
    { injection H1 as <-. reflexivity. }
    by rewrite E.
Defined.

Lemma update_changes_only_provided_fields_witness :
  exists t',
    put_task Demo.platform Demo.id1 {[ "status" := "completed" ]}
      (mkPayload Demo.ann 0 86400) Demo.db
    = (respond 200 (JTask t'),
       (put_task Demo.platform Demo.id1 {[ "status" := "completed" ]}
          (mkPayload Demo.ann 0 86400) Demo.db).2)
    /\ task_status t' = "completed"
    /\ task_title t' = "Write spec"
    /\ task_description t' = "draft v1"
    /\ task_priority t' = "medium"
    /\ task_dueDate t' = 1735689600000.
Proof.
  destruct (update_changes_only_provided_fields Demo.platform Demo.id1 1%N
              {[ "status" := "completed" ]} (mkPayload Demo.ann 0 86400)
              Demo.db Demo.task1)
    as (t' & _ & Ht & Hd & _ & Hp & Hdue & _ & _ & _ & _ & _ & Hok);
    [reflexivity|reflexivity|reflexivity|].
  destruct (Hok (TaskModel.mkCastUpdate None None (Some "completed") None None))
    as (Hres & _ & _ & Hs & _); [reflexivity|reflexivity|].
  exists t'. split_and!.
  - rewrite <- Hres. by destruct (put_task _ _ _ _ _).
  - apply Hs. reflexivity.
  - rewrite Ht; reflexivity.
  - rewrite Hd; reflexivity.
  - rewrite Hp; reflexivity.
  - rewrite Hdue; reflexivity.
Defined.

Lemma create_task_validates_and_defaults_witness :
  (exists task db',
      post_tasks Demo.platform
        (<["title" := "Write spec"]>
           (<["description" := "draft v1"]> {[ "dueDate" := "2025-01-01" ]}))
        (mkPayload Demo.ann 0 86400) Demo.db
      = (respond 201 (JTask task), db')
      /\ task_status task = "pending"
      /\ task_priority task = "medium"
      /\ task_userId task = Demo.ann)
  /\ post_tasks Demo.platform
       (<["title" := "Write spec"]> {[ "dueDate" := "2025-01-01" ]})
       (mkPayload Demo.ann 0 86400) Demo.db
     = (respond 400 (JError "Missing required fields"), Demo.db).
Proof.
  split.
  - destruct (proj2 (create_task_validates_and_defaults Demo.platform
                       (<["title" := "Write spec"]>
                          (<["description" := "draft v1"]>
                             {[ "dueDate" := "2025-01-01" ]}))
                       (mkPayload Demo.ann 0 86400) Demo.db)
                "Write spec" "draft v1" "2025-01-01" 1735689600000)
      as (task & Hres & _ & Hown & _ & _ & _ & _ & Hs & Hp & _);
      [reflexivity|reflexivity|reflexivity|reflexivity
      |intros v Hv; vm_compute in Hv; discriminate Hv
      |intros v Hv; vm_compute in Hv; discriminate Hv|reflexivity|].
    exists task. eexists. split_and!.
    + exact Hres.
    + apply Hs. reflexivity.
    + apply Hp. reflexivity.
    + exact Hown.
  - apply (proj1 (create_task_validates_and_defaults Demo.platform
                    (<["title" := "Write spec"]> {[ "dueDate" := "2025-01-01" ]})
                    (mkPayload Demo.ann 0 86400) Demo.db)).
    right. left. reflexivity.
Defined.

Lemma list_tasks_scoped_filtered_sorted_witness :
  exists tasks,
    get_tasks {[ "status" := "pending" ]} (mkPayload Demo.ann 0 86400) Demo.db
    = (respond 200 (JTasks tasks), Demo.db)
    /\ StronglySorted TaskModel.due_le tasks
    /\ (forall t, t ∈ tasks -> task_userId t = Demo.ann /\ task_status t = "pending").
Proof.
  destruct (list_tasks_scoped_filtered_sorted {[ "status" := "pending" ]}
              (mkPayload Demo.ann 0 86400) Demo.db)
    as (tasks & docs & Hres & _ & Hdocs & Hperm & _ & Hasc & _).
  exists tasks. split_and!.
  - exact Hres.
  - apply Hasc. discriminate.
  - intros t Ht. rewrite Hperm in Ht.
    apply list_elem_of_fmap in Ht as ([i t'] & -> & Hin).
    apply Hdocs in Hin as (_ & Hown & Hst & _). split; [exact Hown|].
    apply Hst. reflexivity.
Defined.

Lemma registration_keeps_emails_unique_witness :
  post_auth_register Demo.platform
    (<["name" := "Ann B"]>
       (<["email" := " ANN@x.com "]> {[ "password" := "secret9" ]}))
    Demo.db
  = (respond 400 (JError "Email already in use"), Demo.db)
  /\ exists u db1,
      post_auth_register Demo.platform
        (<["name" := "Cat"]>
           (<["email" := "Cat@X.com"]> {[ "password" := "secret3" ]}))
        {| Users := ∅; Tasks := ∅ |}
      = (respond 201
           (JRegistered "User registered successfully" (user_id u)
              (user_name u) (user_email u)
              (jwt_sign Demo.platform (user_id u))), db1)
      /\ user_email u = "cat@x.com"
      /\ post_auth_register Demo.platform
           (<["name" := "Kat"]>
              (<["email" := " cat@x.com"]> {[ "password" := "x" ]}))
           db1
         = (respond 400 (JError "Email already in use"), db1).
Proof.
  destruct registration_keeps_emails_unique as (_ & Hdup & Hpair).
  split.
  - apply (Hdup Demo.platform _ Demo.db "Ann B" " ANN@x.com " "secret9"
             Demo.ann Demo.user_ann); reflexivity.
  - destruct (Hpair Demo.platform Demo.platform
                (<["name" := "Cat"]>
                   (<["email" := "Cat@X.com"]> {[ "password" := "secret3" ]}))
                (<["name" := "Kat"]>
                   (<["email" := " cat@x.com"]> {[ "password" := "x" ]}))
                {| Users := ∅; Tasks := ∅ |}
                "Cat" "Cat@X.com" "secret3" "Kat" " cat@x.com" "x")
      as (u & db1 & H1 & _ & _ & _ & He & _ & H2 & _);
      [reflexivity|reflexivity|reflexivity|reflexivity|reflexivity
      |reflexivity|reflexivity
      |intros i u Hu; vm_compute in Hu; discriminate Hu
      |discriminate|discriminate|simpl; lia|reflexivity|].
    exists u, db1. split_and!; [exact H1|exact He|exact H2].
Defined.

Lemma short_password_is_server_error_witness :
  post_auth_register Demo.platform
    (<["name" := "Cat"]>
       (<["email" := "cat@x.com"]> {[ "password" := "abc" ]}))
    Demo.db
  = (respond 500 (JError "Server error during registration"), Demo.db).
Proof.
  destruct (short_password_is_server_error Demo.platform
              (<["name" := "Cat"]>
                 (<["email" := "cat@x.com"]> {[ "password" := "abc" ]}))
              Demo.db "abc")
    as (_ & _ & H); [reflexivity|simpl; lia|].
  apply (H "Cat" "cat@x.com"); [reflexivity|reflexivity|discriminate|].
  intros i u Hu.
  assert (Hall : map_Forall (λ (_ : N) (v : User), user_email v <> "cat@x.com")
                   (Users Demo.db)).
  { apply (@bool_decide_unpack _ (map_Forall_dec _ _)). vm_compute. exact I. }
  exact (Hall i u Hu).
Defined.

(** The session of the specification's scenarios: Ann registers (201), a
    login with a wrong password is refused (401), Ann creates a task that
    gets the default status and priority (201), Bob registers (201) and
    cannot see Ann's task (404), Ann completes the task (200) and reads it
    back with the other fields as they were (200). *)
Example session_responses :
  (serve Demo.session {| Users := ∅; Tasks := ∅ |}).1
  = [ respond 201
        (JRegistered "User registered successfully" Demo.ann "Ann" "ann@x.com"
           "token-ann");
      respond 401 (JError "Invalid credentials");
      respond 201
        (JTask (mkTask 0%N "Write spec" "draft v1" "pending" "medium"
                  1735689600000 None Demo.ann));
      respond 201
        (JRegistered "User registered successfully" Demo.bob "Bob" "bob@x.com"
           "token-bob");
      respond 404 (JError "Task not found");
      respond 200
        (JTask (mkTask 0%N "Write spec" "draft v1" "completed" "medium"
                  1735689600000 None Demo.ann));
      respond 200
        (JTask (mkTask 0%N "Write spec" "draft v1" "completed" "medium"
                  1735689600000 None Demo.ann)) ].
Proof. vm_compute. reflexivity. Qed.

(** * Further properties of the routes *)

(** ** Login *)

Lemma findOne_email_Some email db u :
  UserModel.findOne_email email db = Some u ->
  exists i, Users db !! i = Some u
            /\ user_email u = UserModel.set_email email.
Proof.
  unfold UserModel.findOne_email.
  destruct (map_to_list _) as [|[i v] l] eqn:El; [done|].
  simpl. intros [= <-].
  assert (Hin : (i, v) ∈ (i, v) :: l) by left.
  rewrite <- El in Hin.
  apply elem_of_map_to_list, map_lookup_filter_Some in Hin as [Hv He].
  eauto.
Qed.

Lemma post_auth_login_present P body db email password :
  JS.truthy (body !! "email") = Some email ->
  JS.truthy (body !! "password") = Some password ->
  post_auth_login P body db
  = match UserModel.findOne_email email db with
    | None => (respond 401 (JError "Invalid credentials"), db)
    | Some user =>
        if UserModel.comparePassword P user password then
          (respond 200 (JLogin "Login successful" (jwt_sign P (user_id user))),
           db)
        else (respond 401 (JError "Invalid credentials"), db)
    end.
Proof. intros He Hp. unfold post_auth_login. by rewrite He, Hp. Qed.

(** X1.  The ways a login fails.  Without an email or a password (absent
    or empty) it is answered 400 "Please provide email and password".
    With both, when no stored user has both the normalised email and a
    password that [bcrypt.compare] accepts, it is answered 401 "Invalid
    credentials": the answer for an unknown email and the answer for a
    wrong password are the same.  No login, whatever its body, changes the
    database. *)
Theorem login_rejects_alike P body db :
  (JS.truthy (body !! "email") = None \/ JS.truthy (body !! "password") = None ->
   post_auth_login P body db
   = (respond 400 (JMessage "Please provide email and password"), db))
  /\ (forall email password,
      JS.truthy (body !! "email") = Some email ->
      JS.truthy (body !! "password") = Some password ->
      (forall i u, Users db !! i = Some u ->
                   user_email u = UserModel.set_email email ->
                   bcrypt_compare P password (user_password u) = false) ->
      post_auth_login P body db
      = (respond 401 (JError "Invalid credentials"), db))
  /\ (post_auth_login P body db).2 = db.
Proof.
  split_and!.
  - intros H. unfold post_auth_login.
    destruct (JS.truthy (body !! "email")) as [email|];
      destruct (JS.truthy (body !! "password")) as [password|];
      try reflexivity.
    destruct H; discriminate.
  - intros email password He Hp Hno.
    rewrite (post_auth_login_present _ _ _ _ _ He Hp).
    destruct (UserModel.findOne_email email db) as [u|] eqn:E; [|done].
    apply findOne_email_Some in E as (i & Hu & Hem).
    unfold UserModel.comparePassword. by rewrite (Hno i u Hu Hem).
  - unfold post_auth_login.
    destruct (JS.truthy (body !! "email")); [|done].
    destruct (JS.truthy (body !! "password")); [|done].
    destruct (UserModel.findOne_email _ db); [|done].
    by destruct (UserModel.comparePassword P _ _).
Qed.

(** ** Registration, then login and the guard *)

Lemma findOne_email_inserted email db i u :
  Users db !! i = None ->
  user_email u = UserModel.set_email email ->
  (forall j v, Users db !! j = Some v ->
               user_email v <> UserModel.set_email email) ->
  UserModel.findOne_email email
    {| Users := <[i := u]> (Users db); Tasks := Tasks db |}
  = Some u.
Proof.
  intros Hi He Hfree.
  destruct (UserModel.findOne_email email _) as [x|] eqn:E.
  - apply findOne_email_Some in E as (j & Hx & Hxe). simpl in Hx.
    rewrite lookup_insert in Hx. case_decide; [by injection Hx as ->|].
    by destruct (Hfree j x Hx).
  - exfalso.
    assert (Hu : Users {| Users := <[i := u]> (Users db); Tasks := Tasks db |}
                 !! i = Some u) by (simpl; apply lookup_insert_eq).
    by destruct (findOne_email_free _ _ _ _ E Hu).
Qed.

(** What a registration that passes the handler's tests and the model's
    validators does. *)
Lemma post_auth_register_Ok P body db name email password :
  JS.truthy (body !! "name") = Some name ->
  JS.truthy (body !! "email") = Some email ->
  JS.truthy (body !! "password") = Some password ->
  (forall i u, Users db !! i = Some u ->
               user_email u <> UserModel.set_email email) ->
  JS.trim name <> "" ->
  UserModel.set_email email <> "" ->
  (6 <= String.length password)%nat ->
  Users db !! ObjectId_new P = None ->
  post_auth_register P body db
  = (respond 201
       (JRegistered "User registered successfully" (ObjectId_new P)
          (JS.trim name) (UserModel.set_email email)
          (jwt_sign P (ObjectId_new P))),
     {| Users :=
          <[ObjectId_new P :=
              UserModel.timestamps P
                (UserModel.pre_save P
                   (UserModel.new P name email password))]> (Users db);
        Tasks := Tasks db |}).
Proof.
  intros Hn He Hp Hfree Hname Hemail Hpass Hnew.
  rewrite (post_auth_register_present _ _ _ _ _ _ Hn He Hp).
  rewrite (findOne_email_unused _ _ Hfree).
  by rewrite (save_new_Ok P P _ _ _ _
                (validate_new _ _ _ _ Hname Hemail Hpass)
                (findOne_email_unused _ _ Hfree) Hnew).
Qed.

(** X2.  Registration and login compose.  After a registration that
    succeeds, a login with the same password and with any spelling of the
    email that normalises to the same address (other case, surrounding
    white space) is answered 200 with a token signed for the id that the
    registration returned, provided [bcrypt.compare] accepts the password
    against the hash that [bcrypt.hash] gave.  The 201 answer carries the
    trimmed name and the normalised email.  (The registration succeeds
    because its fields pass the validators and the ObjectId drawn for the
    user is a new one.) *)
Theorem register_then_login P1 P2 body body' db name email password email' :
  JS.truthy (body !! "name") = Some name ->
  JS.truthy (body !! "email") = Some email ->
  JS.truthy (body !! "password") = Some password ->
  (forall i u, Users db !! i = Some u ->
               user_email u <> UserModel.set_email email) ->
  JS.trim name <> "" ->
  UserModel.set_email email <> "" ->
  (6 <= String.length password)%nat ->
  Users db !! ObjectId_new P1 = None ->
  JS.truthy (body' !! "email") = Some email' ->
  JS.truthy (body' !! "password") = Some password ->
  UserModel.set_email email' = UserModel.set_email email ->
  bcrypt_compare P2 password (bcrypt_hash P1 password) = true ->
  exists uid db1,
    post_auth_register P1 body db
    = (respond 201
         (JRegistered "User registered successfully" uid (JS.trim name)
            (UserModel.set_email email) (jwt_sign P1 uid)), db1)
    /\ post_auth_login P2 body' db1
       = (respond 200 (JLogin "Login successful" (jwt_sign P2 uid)), db1).
Proof.
  intros Hn He Hp Hfree Hname Hemail Hpass Hnew He' Hp' Hsame Hbcrypt.
  eexists _, _. split.
  - by apply post_auth_register_Ok.
  - rewrite (post_auth_login_present _ _ _ _ _ He' Hp').
    erewrite (findOne_email_inserted email').
    + unfold UserModel.comparePassword. simpl. by rewrite Hbcrypt.
    + exact Hnew.
    + simpl. by rewrite Hsame.
    + intros j v Hv. rewrite Hsame. exact (Hfree j v Hv).
Qed.

(** X3.  The token that a successful registration returns is accepted by
    the guard on the database the registration leaves, as the new user:
    sent as "Bearer <token>", it makes the guard call the handler with the
    payload of the token, provided [jwt.verify] gives for the signed token
    a payload with the id it was signed for (the token itself has no space
    in it and is not empty; the ObjectId drawn for the user is a new
    one). *)
Theorem registration_token_authenticates
    P1 P2 body db name email password verified :
  JS.truthy (body !! "name") = Some name ->
  JS.truthy (body !! "email") = Some email ->
  JS.truthy (body !! "password") = Some password ->
  (forall i u, Users db !! i = Some u ->
               user_email u <> UserModel.set_email email) ->
  JS.trim name <> "" ->
  UserModel.set_email email <> "" ->
  (6 <= String.length password)%nat ->
  Users db !! ObjectId_new P1 = None ->
  jwt_verify P2 (jwt_sign P1 (ObjectId_new P1)) = Verified verified ->
  payload_id verified = ObjectId_new P1 ->
  JS.spaceless (jwt_sign P1 (ObjectId_new P1)) = true ->
  jwt_sign P1 (ObjectId_new P1) <> "" ->
  exists uid name' email' token db1,
    post_auth_register P1 body db
    = (respond 201
         (JRegistered "User registered successfully" uid name' email' token),
       db1)
    /\ payload_id verified = uid
    /\ authenticateToken P2 (Some ("Bearer " ++ token)) db1 = inr verified
    /\ forall handler,
        protected P2 handler (Some ("Bearer " ++ token)) db1
        = handler verified db1.
Proof.
  intros Hn He Hp Hfree Hname Hemail Hpass Hnew Hver Hid Hsp Hne.
  eexists _, _, _, _, _. split; [by apply post_auth_register_Ok|].
  split; [exact Hid|].
  assert (Htok : JS.truthy
                   (token_of (Some ("Bearer "
                                      ++ jwt_sign P1 (ObjectId_new P1))))
                 = Some (jwt_sign P1 (ObjectId_new P1))).
  { unfold token_of. rewrite truthy_nonempty by done.
    change ("Bearer " ++ jwt_sign P1 (ObjectId_new P1))
      with ("Bearer" ++ " " ++ jwt_sign P1 (ObjectId_new P1)).
    rewrite split_space_app by reflexivity.
    rewrite (split_space_spaceless _ Hsp). simpl. by apply truthy_nonempty. }
  assert (Hauth : authenticateToken P2
                    (Some ("Bearer " ++ jwt_sign P1 (ObjectId_new P1)))
                    {| Users :=
                         <[ObjectId_new P1 :=
                             UserModel.timestamps P1
                               (UserModel.pre_save P1
                                  (UserModel.new P1 name email password))]>
                           (Users db);
                       Tasks := Tasks db |}
                  = inr verified).
  { rewrite (authenticateToken_verified _ _ _ _ _ Htok Hver).
    unfold UserModel.findById. simpl. rewrite Hid.
    by rewrite lookup_insert_eq. }
  split; [exact Hauth|].
  intros handler. by apply protected_next.
Qed.

(** X4.  What a registration that is not complete gets.  Without a name,
    an email or a password (absent or empty) it is answered 400 "Please
    provide name, email, and password".  A name or an email that is
    present but made of white space only passes that test and, for an
    email that is not registered, reaches the model, which trims it and
    then rejects it as missing: the answer is 500 "Server error during
    registration", not 400.  In both cases the database is unchanged. *)
Theorem register_incomplete P body db :
  (JS.truthy (body !! "name") = None
   \/ JS.truthy (body !! "email") = None
   \/ JS.truthy (body !! "password") = None ->
   post_auth_register P body db
   = (respond 400 (JMessage "Please provide name, email, and password"), db))
  /\ (forall name email password,
         JS.truthy (body !! "name") = Some name ->
         JS.truthy (body !! "email") = Some email ->
         JS.truthy (body !! "password") = Some password ->
         (forall i u, Users db !! i = Some u ->
                      user_email u <> UserModel.set_email email) ->
         JS.trim name = "" \/ UserModel.set_email email = "" ->
         post_auth_register P body db
         = (respond 500 (JError "Server error during registration"), db)).
Proof.
  split.
  - intros H. unfold post_auth_register.
    destruct (JS.truthy (body !! "name")) as [name|];
      destruct (JS.truthy (body !! "email")) as [email|];
      destruct (JS.truthy (body !! "password")) as [password|];
      try reflexivity.
    destruct H as [H|[H|H]]; discriminate.
  - intros name email password Hn He Hp Hfree Hblank.
    rewrite (post_auth_register_present _ _ _ _ _ _ Hn He Hp).
    rewrite (findOne_email_unused _ _ Hfree).
    assert (Hv : UserModel.validate (UserModel.new P name email password)
                 = false).
    { unfold UserModel.validate, UserModel.new, UserModel.set_name. simpl.
      destruct Hblank as [-> | ->]; simpl; [done|].
      by rewrite andb_false_r. }
    unfold UserModel.save. by rewrite Hv.
Qed.

(** ** What the guard lets through *)

Lemma authenticateToken_inr P auth db user :
  authenticateToken P auth db = inr user ->
  exists token u,
    JS.truthy (token_of auth) = Some token
    /\ jwt_verify P token = Verified user
    /\ Users db !! payload_id user = Some u.
Proof.
  unfold authenticateToken, UserModel.findById.
  destruct (JS.truthy (token_of auth)) as [token|]; [|done].
  destruct (jwt_verify P token) as [v| | |] eqn:Ev; try done.
  destruct (Users db !! payload_id v) as [u|] eqn:Eu; [|done].
  intros [= <-]. eauto.
Qed.

(** X5.  The guard calls the handler only with the payload of a token that
    [jwt.verify] accepted and whose subject is a stored user; otherwise it
    answers with one of three fixed responses, 401 or 400. *)
Theorem guard_passes_only_existing_users P auth db :
  match authenticateToken P auth db with
  | inr user =>
      exists token u,
        JS.truthy (token_of auth) = Some token
        /\ jwt_verify P token = Verified user
        /\ Users db !! payload_id user = Some u
  | inl res =>
      res = respond 401 (JError "Access denied. No token provided.")
      \/ res = respond 401 (JError "Invalid token. User not found.")
      \/ res = respond 400 (JError "Invalid or expired token.")
  end.
Proof.
  destruct (authenticateToken P auth db) as [res|user] eqn:E.
  - unfold authenticateToken in E.
    destruct (JS.truthy (token_of auth)) as [token|];
      [|injection E as <-; by left].
    destruct (jwt_verify P token) as [v| | |];
      try (injection E as <-; by right; right).
    destruct (UserModel.findById (payload_id v) db); [done|].
    injection E as <-. by right; left.
  - by apply authenticateToken_inr.
Qed.

(** ** What a request does to the two collections *)

Lemma post_tasks_effect P body user db :
  (post_tasks P body user db).2 = db
  \/ exists t',
      (post_tasks P body user db).2
      = {| Users := Users db; Tasks := <[task_id t' := t']> (Tasks db) |}
      /\ Tasks db !! task_id t' = None
      /\ task_userId t' = payload_id user.
Proof.
  unfold post_tasks.
  destruct (JS.truthy (body !! "title")) as [title|]; [|by left].
  destruct (JS.truthy (body !! "description")) as [description|]; [|by left].
  destruct (JS.truthy (body !! "dueDate")) as [dueDate|]; [|by left].
  unfold TaskModel.save_new.
  destruct (Date_parse P dueDate) as [due|]; [|by left].
  destruct (_ && _); [|by left]. simpl.
  destruct (Tasks db !! ObjectId_new P) eqn:Hnew; [by left|].
  right. eexists (mkTask (ObjectId_new P) _ _ _ _ _ _ _). simpl.
  split_and!; [reflexivity|exact Hnew|done].
Qed.

Lemma put_task_effect P id body user db :
  (put_task P id body user db).2 = db
  \/ exists i t cu,
      Tasks db !! i = Some t
      /\ task_userId t = payload_id user
      /\ (put_task P id body user db).2
         = {| Users := Users db;
              Tasks := <[i := TaskModel.applyUpdate cu t]> (Tasks db) |}.
Proof.
  unfold put_task, TaskModel.findOneAndUpdate.
  destruct (ObjectIds.cast id) as [i|]; [|by left].
  destruct (TaskModel.castUpdate P (update_of body)) as [cu|e]; [|by left].
  destruct (TaskModel.validateUpdate cu); [|by left].
  destruct (Tasks db !! i) as [t|] eqn:Et; [|by left].
  case_decide as Ho; [|by left].
  right. exists i, t, cu. done.
Qed.

Lemma delete_task_effect id user db :
  (delete_task id user db).2 = db
  \/ exists i t,
      Tasks db !! i = Some t
      /\ task_userId t = payload_id user
      /\ (delete_task id user db).2
         = {| Users := Users db; Tasks := delete i (Tasks db) |}.
Proof.
  unfold delete_task, TaskModel.findOneAndDelete.
  destruct (ObjectIds.cast id) as [i|]; [|by left].
  destruct (Tasks db !! i) as [t|] eqn:Et; [|by left].
  case_decide as Ho; [|by left].
  right. exists i, t. done.
Qed.

Lemma post_task_reminder_effect P id body user db :
  (post_task_reminder P id body user db).2 = db
  \/ exists i t d,
      Tasks db !! i = Some t
      /\ task_userId t = payload_id user
      /\ (post_task_reminder P id body user db).2
         = {| Users := Users db;
              Tasks := <[task_id t := with_reminder d t]> (Tasks db) |}.
Proof.
  unfold post_task_reminder, TaskModel.findOne.
  destruct (JS.truthy (body !! "reminderDate")) as [reminderDate|]; [|by left].
  destruct (ObjectIds.cast id) as [i|]; [|by left].
  destruct (Tasks db !! i) as [t|] eqn:Et; [|by left].
  case_decide as Ho; [|by left].
  unfold TaskModel.save_reminder.
  destruct (Date_parse P reminderDate) as [d|]; [|by left].
  right. exists i, t, d. done.
Qed.

(** The effect of any request on the task collection: nothing, or one task
    of the authenticated caller written under its id, or one task of the
    authenticated caller deleted. *)
Lemma handle_tasks_effect P req db :
  ids_consistent db ->
  Tasks (handle P req db).2 = Tasks db
  \/ (exists auth user i t',
         authorization_of req = Some auth
         /\ authenticateToken P auth db = inr user
         /\ Tasks (handle P req db).2 = <[i := t']> (Tasks db)
         /\ task_id t' = i
         /\ task_userId t' = payload_id user
         /\ (forall t, Tasks db !! i = Some t -> task_userId t = payload_id user))
  \/ (exists auth user i t,
         authorization_of req = Some auth
         /\ authenticateToken P auth db = inr user
         /\ Tasks db !! i = Some t
         /\ task_userId t = payload_id user
         /\ Tasks (handle P req db).2 = delete i (Tasks db)).
Proof.
  intros Hids.
  destruct req as [b|b|a b|a q|a id|a id b|a id|a id b]; simpl.
  - destruct (post_auth_register_effect P b db)
      as [->|(i & u & email & -> & _)]; by left.
  - left. unfold post_auth_login.
    destruct (JS.truthy (b !! "email")); [|done].
    destruct (JS.truthy (b !! "password")); [|done].
    destruct (UserModel.findOne_email _ db); [|done].
    by destruct (UserModel.comparePassword P _ _).
  - unfold protected.
    destruct (authenticateToken P a db) as [res|user] eqn:Ea; [by left|].
    destruct (post_tasks_effect P b user db) as [->|(t' & -> & Hnew & Ho)];
      [by left|].
    right; left. exists a, user, (task_id t'), t'. simpl.
    split_and!; try done. intros t Ht. congruence.
  - left. unfold protected. by destruct (authenticateToken P a db).
  - left. unfold protected, get_task.
    destruct (authenticateToken P a db) as [res|user]; [done|].
    by destruct (TaskModel.findOne id (payload_id user) db) as [[t|]|e].
  - unfold protected.
    destruct (authenticateToken P a db) as [res|user] eqn:Ea; [by left|].
    destruct (put_task_effect P id b user db)
      as [->|(i & t & cu & Ht & Ho & ->)]; [by left|].
    right; left. exists a, user, i, (TaskModel.applyUpdate cu t). simpl.
    split_and!; try done.
    + by apply Hids.
    + intros t0 Ht0. congruence.
  - unfold protected.
    destruct (authenticateToken P a db) as [res|user] eqn:Ea; [by left|].
    destruct (delete_task_effect id user db) as [->|(i & t & Ht & Ho & ->)];
      [by left|].
    right; right. exists a, user, i, t. done.
  - unfold protected.
    destruct (authenticateToken P a db) as [res|user] eqn:Ea; [by left|].
    destruct (post_task_reminder_effect P id b user db)
      as [->|(i & t & d & Ht & Ho & ->)]; [by left|].
    right; left. exists a, user, i, (with_reminder d t). simpl.
    rewrite (Hids _ _ Ht). split_and!; try done.
    intros t0 Ht0. congruence.
Qed.

(** The effect of any request on the user collection: nothing, or one
    user added under an id that was free. *)
Lemma handle_users_effect P req db :
  Users (handle P req db).2 = Users db
  \/ exists i u, Users db !! i = None
                 /\ Users (handle P req db).2 = <[i := u]> (Users db).
Proof.
  destruct req as [b|b|a b|a q|a id|a id b|a id|a id b].
  1: { simpl. destruct (post_auth_register_effect P b db)
         as [->|(i & u & email & -> & Hi & _)]; [by left|].
       right. exists i, u. done. }
  all: left; by apply handle_keeps_users.
Qed.

(** X6.  No request touches a task of somebody else.  A task stays stored,
    as it is, through every request that is not authenticated as the
    task's owner: requests to the two public routes, requests the guard
    rejects, and requests of other users to any protected route. *)
Theorem requests_leave_other_owners_tasks P req db i t :
  ids_consistent db ->
  Tasks db !! i = Some t ->
  (forall auth user,
      authorization_of req = Some auth ->
      authenticateToken P auth db = inr user ->
      task_userId t <> payload_id user) ->
  Tasks (handle P req db).2 !! i = Some t.
Proof.
  intros Hids Ht Hother.
  destruct (handle_tasks_effect P req db Hids)
    as [->|[(a & user & j & t' & Ha & Hu & -> & _ & _ & Hown)
           |(a & user & j & t' & Ha & Hu & Hj & Hown & ->)]].
  - done.
  - rewrite lookup_insert. case_decide as E; [|done]. subst j.
    by destruct (Hother a user Ha Hu (Hown t Ht)).
  - rewrite lookup_delete. case_decide as E; [|done]. subst j.
    assert (t' = t) by congruence. subst t'.
    by destruct (Hother a user Ha Hu Hown).
Qed.

(** X7.  Users are only ever added.  A stored user is stored unchanged
    after any request, so a header that the guard accepted keeps being
    accepted, as the same user, after any request of anybody, as long as
    [jwt.verify] gives the same result. *)
Theorem users_are_only_added P req db :
  (forall i u, Users db !! i = Some u ->
               Users (handle P req db).2 !! i = Some u)
  /\ (forall P' auth user,
         authenticateToken P' auth db = inr user ->
         authenticateToken P' auth (handle P req db).2 = inr user).
Proof.
  assert (Hkeep : forall i u, Users db !! i = Some u ->
                              Users (handle P req db).2 !! i = Some u).
  { intros i u Hu.
    destruct (handle_users_effect P req db) as [->|(j & v & Hj & ->)]; [done|].
    rewrite lookup_insert_ne; [done|]. intros ->. congruence. }
  split; [exact Hkeep|].
  intros P' auth user Hauth.
  destruct (authenticateToken_inr _ _ _ _ Hauth) as (token & u & Ht & Hv & Hu).
  rewrite (authenticateToken_verified _ _ _ _ _ Ht Hv).
  unfold UserModel.findById. by rewrite (Hkeep _ _ Hu).
Qed.

(** ** Invariants of the reachable databases *)

Lemma save_stored hashes P P0 name email password db u' db' :
  hashing hashes P ->
  UserModel.save P (UserModel.new P0 name email password) db = Ok (u', db') ->
  Users db' = <[user_id u' := u']> (Users db)
  /\ Tasks db' = Tasks db
  /\ Users db !! user_id u' = None
  /\ stored_user_ok hashes u'.
Proof.
  intros Hh Hs. apply save_Ok in Hs as (Hv & -> & Hi & _ & ->).
  simpl in *. split_and!; try done.
  unfold UserModel.validate in Hv. simpl in Hv.
  apply andb_true_iff in Hv as [Hv Hlen].
  apply andb_true_iff in Hv as [Hv Hpw].
  apply andb_true_iff in Hv as [Hname Hemail].
  unfold stored_user_ok, UserModel.set_name. simpl. split_and!.
  - apply trim_idem.
  - destruct (String.eqb_spec (UserModel.set_name name) ""); done.
  - apply set_email_idem.
  - destruct (String.eqb_spec (UserModel.set_email email) ""); done.
  - exists password. split; [apply Hh|]. by apply Nat.leb_le.
  - eauto.
Qed.

(** The second half of a registration, whenever it runs, leaves the tasks
    alone and adds at most the pending document, validated and hashed. *)
Lemma late_save_stored hashes P0 P body db0 db newUser :
  hashing hashes P ->
  register_lookup P0 body db0 = inr newUser ->
  Tasks (register_save P (inr newUser) db).2 = Tasks db
  /\ (Users (register_save P (inr newUser) db).2 = Users db
      \/ exists u, Users db !! user_id u = None
                   /\ stored_user_ok hashes u
                   /\ Users (register_save P (inr newUser) db).2
                      = <[user_id u := u]> (Users db)).
Proof.
  intros Hh Hl.
  apply register_lookup_inr in Hl as (name & email & password & _ & ->).
  unfold register_save.
  destruct (UserModel.save P _ db) as [[u' db']|e] eqn:E; [|by split; [|left]].
  apply (save_stored hashes) in E as (Hu & Ht & Hi & Hok); [|done].
  simpl. split; [done|]. right. by exists u'.
Qed.

Lemma handle_users_stored hashes P req db :
  hashing hashes P ->
  Users (handle P req db).2 = Users db
  \/ exists u, Users db !! user_id u = None
               /\ stored_user_ok hashes u
               /\ Users (handle P req db).2 = <[user_id u := u]> (Users db).
Proof.
  intros Hh.
  destruct req as [b|b|a b|a q|a id|a id b|a id|a id b].
  2-8: left; by apply handle_keeps_users.
  simpl. unfold post_auth_register.
  destruct (JS.truthy (b !! "name")) as [name|]; [|by left].
  destruct (JS.truthy (b !! "email")) as [email|]; [|by left].
  destruct (JS.truthy (b !! "password")) as [password|]; [|by left].
  destruct (UserModel.findOne_email email db); [by left|].
  destruct (UserModel.save P _ db) as [[u' db']|e] eqn:E; [|by left].
  right. apply (save_stored hashes) in E as (Hu & _ & Hi & Hok); [|done].
  exists u'. done.
Qed.

(** Every platform hashes in the sense of the relation that holds of all
    pairs. *)
Lemma hashing_True P : hashing (λ _ _, True) P.
Proof. done. Qed.

Lemma handle_users_mono P req db i u :
  Users db !! i = Some u -> Users (handle P req db).2 !! i = Some u.
Proof.
  intros Hu.
  destruct (handle_users_stored _ P req db (hashing_True P))
    as [->|(v & Hv & _ & ->)]; [done|].
  rewrite lookup_insert_ne; [done|]. intros E. congruence.
Qed.

Lemma reachable_serve ok reqs db :
  Forall (λ pr, ok pr.1) reqs ->
  reachable_on ok db -> reachable_on ok (serve reqs db).2.
Proof.
  intros Hok. revert db.
  induction Hok as [|[P req] reqs HP _ IH]; intros db Hr; simpl; [done|].
  pose proof (reachable_handle ok P req db HP Hr) as H1.
  destruct (handle P req db) as [res db1]. simpl in H1.
  specialize (IH db1 H1). by destruct (serve reqs db1).
Qed.

(** X8.  In every database the server can reach, every task and every
    user is stored under its own [_id], and the owner of every task is a
    stored user: an update, a reminder or a deletion cannot leave a task
    without its owner, and no task is created for a user that is not
    stored. *)
Theorem reachable_ids_and_owners db :
  reachable db ->
  ids_consistent db /\ user_ids_consistent db /\ owners_exist db.
Proof.
  unfold reachable.
  induction 1 as [|P req db _ Hr (Hids & Huids & Hown)
                  |P0 P body db0 db newUser _ _ _ _ Hr
                     (Hids & Huids & Hown) Hl].
  - split_and!; intros i x; simpl; by rewrite lookup_empty.
  - split_and!.
    + destruct (handle_tasks_effect P req db Hids)
        as [E|[(a & user & j & t' & _ & _ & E & Hid & _)
              |(a & user & j & t' & _ & _ & _ & _ & E)]];
        intros i t; rewrite E.
      * apply Hids.
      * rewrite lookup_insert. case_decide; [|apply Hids].
        intros [= <-]. congruence.
      * rewrite lookup_delete. case_decide; [done|apply Hids].
    + destruct (handle_users_stored _ P req db (hashing_True P))
        as [E|(u & Hu & _ & E)];
        intros i v; rewrite E.
      * apply Huids.
      * rewrite lookup_insert. case_decide; [|apply Huids].
        intros [= <-]. done.
    + intros i t Ht.
      assert (Hold : forall j t0, Tasks db !! j = Some t0 ->
                 is_Some (Users (handle P req db).2 !! task_userId t0)).
      { intros j t0 Ht0. destruct (Hown j t0 Ht0) as [u Hu].
        exists u. by apply handle_users_mono. }
      destruct (handle_tasks_effect P req db Hids)
        as [E|[(a & user & j & t' & _ & Hauth & E & _ & Ho & _)
              |(a & user & j & t' & _ & _ & _ & _ & E)]];
        rewrite E in Ht.
      * by apply (Hold i).
      * rewrite lookup_insert in Ht. case_decide; [|by apply (Hold i)].
        injection Ht as <-. rewrite Ho.
        destruct (authenticateToken_inr _ _ _ _ Hauth) as (_ & u & _ & _ & Hu).
        exists u. by apply handle_users_mono.
      * rewrite lookup_delete in Ht. case_decide; [done|by apply (Hold i)].
  - destruct (late_save_stored _ P0 P body db0 db newUser (hashing_True P) Hl)
      as (Ht & [Hu|(u & Hi & _ & Hu)]); split_and!.
    + intros i t. rewrite Ht. apply Hids.
    + intros i v. rewrite Hu. apply Huids.
    + intros i t. rewrite Ht, Hu. apply Hown.
    + intros i t. rewrite Ht. apply Hids.
    + intros i v. rewrite Hu, lookup_insert.
      case_decide; [|apply Huids]. intros [= <-]. done.
    + intros i t. rewrite Ht, Hu. intros Hit.
      destruct (Hown i t Hit) as [v Hv]. exists v.
      rewrite lookup_insert_ne; [done|]. intros E. congruence.
Qed.

(** X9.  Let [hashes] relate a stored string to a password, and let what
    [bcrypt.hash] returns for a password always be related to it (the
    relation stands for "is a bcrypt hash of").  Then in every database
    the server can reach, every stored user went through the model: the
    name is trimmed and not empty, the email is normalised and not empty,
    the stored password is a hash, in that sense, of a password of 6
    characters or more, and both timestamps are set to the time of the
    save. *)
Theorem reachable_users_validated hashes db :
  reachable_on (hashing hashes) db ->
  forall i u, Users db !! i = Some u -> stored_user_ok hashes u.
Proof.
  induction 1 as [|P req db HP Hr IH
                  |P0 P body db0 db newUser _ HP _ _ Hr IH Hl];
    intros i u.
  - simpl. by rewrite lookup_empty.
  - destruct (handle_users_stored hashes P req db HP)
      as [->|(v & _ & Hok & ->)]; [apply IH|].
    rewrite lookup_insert. case_decide; [|apply IH]. by intros [= <-].
  - destruct (late_save_stored hashes P0 P body db0 db newUser HP Hl)
      as (_ & [->|(v & _ & Hok & ->)]); [apply IH|].
    rewrite lookup_insert. case_decide; [|apply IH]. by intros [= <-].
Qed.

(** ** Reminders *)

(** X10.  The ways [POST /tasks/:id/reminder] refuses.  Without a
    [reminderDate] (absent or empty) the answer is 400 "Missing reminder
    date", whatever the id.  With one, for a task that does not exist or
    belongs to somebody else the answer is 404 "Task not found", whether
    or not the date is a date; for a task of the caller and a date that
    is [Invalid Date] it is 500 "Error setting reminder".  In each case
    the database is unchanged. *)
Theorem reminder_rejections P id body user db :
  (JS.truthy (body !! "reminderDate") = None ->
   post_task_reminder P id body user db
   = (respond 400 (JError "Missing reminder date"), db))
  /\ (forall reminderDate i,
         JS.truthy (body !! "reminderDate") = Some reminderDate ->
         ObjectIds.cast id = Some i ->
         (not_owned i (payload_id user) db ->
          post_task_reminder P id body user db
          = (respond 404 (JError "Task not found"), db))
         /\ (forall t,
                Tasks db !! i = Some t ->
                task_userId t = payload_id user ->
                Date_parse P reminderDate = None ->
                post_task_reminder P id body user db
                = (respond 500 (JError "Error setting reminder"), db))).
Proof.
  split.
  - intros H. unfold post_task_reminder. by rewrite H.
  - intros reminderDate i Hd Hc. unfold post_task_reminder. rewrite Hd. split.
    + intros Hn. by rewrite (findOne_not_owned _ _ _ _ Hc Hn).
    + intros t Ht Ho Hinv. unfold TaskModel.findOne. rewrite Hc, Ht.
      rewrite decide_True by done. by rewrite Hinv.
Qed.

(** X11.  A reminder set on a task of the caller changes that task's
    [reminderDate] and nothing else: the answer is 200 with the task, whose
    other fields are as before, every other task and every user is
    untouched, and a GET of the task that follows returns it with the
    reminder. *)
Theorem reminder_sets_only_reminderDate
    P id i body user db t reminderDate d :
  JS.truthy (body !! "reminderDate") = Some reminderDate ->
  ObjectIds.cast id = Some i ->
  Tasks db !! i = Some t ->
  task_id t = i ->
  task_userId t = payload_id user ->
  Date_parse P reminderDate = Some d ->
  exists t' db',
    post_task_reminder P id body user db
    = (respond 200 (JReminder "Reminder set successfully" t'), db')
    /\ task_reminderDate t' = Some d
    /\ task_id t' = task_id t
    /\ task_title t' = task_title t
    /\ task_description t' = task_description t
    /\ task_status t' = task_status t
    /\ task_priority t' = task_priority t
    /\ task_dueDate t' = task_dueDate t
    /\ task_userId t' = task_userId t
    /\ Tasks db' !! i = Some t'
    /\ (forall j, j <> i -> Tasks db' !! j = Tasks db !! j)
    /\ Users db' = Users db
    /\ get_task id user db' = (respond 200 (JTask t'), db').
Proof.
  intros Hd Hc Ht Hid Ho Hdate. subst i.
  exists (with_reminder d t),
    {| Users := Users db;
       Tasks := <[task_id t := with_reminder d t]> (Tasks db) |}.
  split_and!; try done.
  - unfold post_task_reminder, TaskModel.findOne. rewrite Hd, Hc, Ht.
    rewrite decide_True by done. unfold TaskModel.save_reminder.
    by rewrite Hdate.
  - simpl. apply lookup_insert_eq.
  - intros j Hj. simpl. by rewrite lookup_insert_ne.
  - unfold get_task, TaskModel.findOne. rewrite Hc. simpl.
    rewrite lookup_insert_eq. simpl. by rewrite decide_True.
Qed.

(** ** Ids that are not ObjectIds *)

(** X12.  On the four routes that take a task id, an id that is not an
    ObjectId makes Mongoose throw when it casts the filter; each handler
    catches that and answers 500 with its own message ("Error fetching
    task", "Error updating task", "Error deleting task", "Error setting
    reminder"), not 404, and the database is unchanged. *)
Theorem malformed_id_is_server_error P id user db :
  ObjectIds.cast id = None ->
  get_task id user db = (respond 500 (JError "Error fetching task"), db)
  /\ (forall body,
         put_task P id body user db
         = (respond 500 (JError "Error updating task"), db))
  /\ delete_task id user db = (respond 500 (JError "Error deleting task"), db)
  /\ (forall body reminderDate,
         JS.truthy (body !! "reminderDate") = Some reminderDate ->
         post_task_reminder P id body user db
         = (respond 500 (JError "Error setting reminder"), db)).
Proof.
  intros Hc. split_and!.
  - unfold get_task, TaskModel.findOne. by rewrite Hc.
  - intros body. unfold put_task, TaskModel.findOneAndUpdate. by rewrite Hc.
  - unfold delete_task, TaskModel.findOneAndDelete. by rewrite Hc.
  - intros body reminderDate Hd.
    unfold post_task_reminder, TaskModel.findOne. by rewrite Hd, Hc.
Qed.

(** ** Updates compose *)

Lemma applyUpdate_idem cu t :
  TaskModel.applyUpdate cu (TaskModel.applyUpdate cu t)
  = TaskModel.applyUpdate cu t.
Proof.
  unfold TaskModel.applyUpdate. simpl.
  destruct (TaskModel.set_title cu), (TaskModel.set_description cu),
    (TaskModel.set_status cu), (TaskModel.set_priority cu),
    (TaskModel.set_dueDate cu); reflexivity.
Qed.

(** X13.  PUT is idempotent: sending the same update to the same id a
    second time gives the same answer and leaves the database as the
    first left it, whatever the id, the body and the caller. *)
Theorem put_task_idempotent P id body user db :
  put_task P id body user (put_task P id body user db).2
  = put_task P id body user db.
Proof.
  unfold put_task, TaskModel.findOneAndUpdate.
  destruct (ObjectIds.cast id) as [i|]; [|reflexivity].
  destruct (TaskModel.castUpdate P (update_of body)) as [cu|e]; [|reflexivity].
  destruct (TaskModel.validateUpdate cu); [|reflexivity].
  destruct (Tasks db !! i) as [t|] eqn:Ht; simpl; [|by rewrite Ht].
  destruct (decide (task_userId t = payload_id user)) as [Ho|Ho]; simpl.
  - rewrite lookup_insert_eq. simpl. rewrite decide_True by done.
    by rewrite applyUpdate_idem, insert_insert_eq.
  - rewrite Ht. by rewrite decide_False.
Qed.

(** X14.  A PUT whose body has none of [title], [description], [status],
    [priority], [dueDate] on a task of the caller is answered 200 with the
    task as it is, and the database is unchanged. *)
Theorem empty_update_changes_nothing P id i body user db t :
  body !! "title" = None ->
  body !! "description" = None ->
  body !! "status" = None ->
  body !! "priority" = None ->
  body !! "dueDate" = None ->
  ObjectIds.cast id = Some i ->
  Tasks db !! i = Some t ->
  task_userId t = payload_id user ->
  put_task P id body user db = (respond 200 (JTask t), db).
Proof.
  intros H1 H2 H3 H4 H5 Hc Ht Ho.
  rewrite (put_task_owned _ _ _ _ _ _ _ Hc Ht Ho).
  unfold update_of, TaskModel.castUpdate. rewrite H1, H2, H3, H4, H5. simpl.
  assert (E : TaskModel.applyUpdate
                (TaskModel.mkCastUpdate None None None None None) t = t)
    by (by destruct t).
  rewrite E, (insert_id _ _ _ Ht). by destruct db.
Qed.

(** ** What the list shows *)

(** The tasks that [GET /tasks] lists are the stored tasks selected by the
    query for the caller. *)
Lemma get_tasks_elem query user db tasks t :
  get_tasks query user db = (respond 200 (JTasks tasks), db) ->
  t ∈ tasks <-> exists i, Tasks db !! i = Some t /\ selected query user t.
Proof.
  unfold get_tasks. intros [= <-].
  assert (Hperm : forall dir l, TaskModel.sort_dueDate dir l ≡ₚ l).
  { intros dir l. unfold TaskModel.sort_dueDate.
    case_decide; apply merge_sort_Permutation. }
  rewrite Hperm. unfold TaskModel.find. rewrite list_elem_of_fmap. split.
  - intros ([i t'] & -> & Hin).
    apply elem_of_map_to_list, map_lookup_filter_Some in Hin as [Hi Hm].
    simpl in Hm. apply matches_spec in Hm. exists i. done.
  - intros (i & Hi & Hsel). exists (i, t). split; [done|].
    apply elem_of_map_to_list, map_lookup_filter_Some. split; [done|].
    simpl. by apply matches_spec.
Qed.

Lemma get_tasks_total query user db :
  exists tasks, get_tasks query user db = (respond 200 (JTasks tasks), db).
Proof. eexists. reflexivity. Qed.

(** X15.  A task that [POST /tasks] answered with 201 can be read back:
    a GET of its id by the caller returns it, it is in the caller's list
    for every query that selects it (the empty query among them), and the
    tasks that were stored before are still stored as they were. *)
Theorem created_task_is_readable P body user db t db' :
  post_tasks P body user db = (respond 201 (JTask t), db') ->
  (forall id, ObjectIds.cast id = Some (task_id t) ->
              get_task id user db' = (respond 200 (JTask t), db'))
  /\ (forall query, selected query user t ->
                    exists tasks,
                      get_tasks query user db' = (respond 200 (JTasks tasks), db')
                      /\ t ∈ tasks)
  /\ selected ∅ user t
  /\ (forall i t0, Tasks db !! i = Some t0 -> Tasks db' !! i = Some t0).
Proof.
  intros Hpost.
  assert (H : Tasks db !! task_id t = None
              /\ task_userId t = payload_id user
              /\ db' = {| Users := Users db;
                          Tasks := <[task_id t := t]> (Tasks db) |}).
  { unfold post_tasks in Hpost.
    destruct (JS.truthy (body !! "title")) as [title|]; [|done].
    destruct (JS.truthy (body !! "description")) as [description|]; [|done].
    destruct (JS.truthy (body !! "dueDate")) as [dueDate|]; [|done].
    unfold TaskModel.save_new in Hpost.
    destruct (Date_parse P dueDate) as [due|]; [|done].
    destruct (_ && _); [|done]. simpl in Hpost.
    destruct (Tasks db !! ObjectId_new P) eqn:Hnew; [done|].
    injection Hpost as <- <-. simpl. split_and!; [exact Hnew|done..]. }
  destruct H as (Hnew & Ho & ->).
  assert (Hsel : selected ∅ user t).
  { unfold selected. rewrite !lookup_empty. simpl. split_and!; done. }
  split_and!.
  - intros id Hc. unfold get_task, TaskModel.findOne. rewrite Hc. simpl.
    rewrite lookup_insert_eq. by rewrite decide_True.
  - intros query Hq.
    destruct (get_tasks_total query user
                {| Users := Users db; Tasks := <[task_id t := t]> (Tasks db) |})
      as [tasks Ht].
    exists tasks. split; [done|].
    apply (get_tasks_elem _ _ _ _ _ Ht). exists (task_id t).
    split; [simpl; apply lookup_insert_eq|done].
  - exact Hsel.
  - intros i t0 Ht0. simpl. rewrite lookup_insert_ne; [done|].
    intros E. congruence.
Qed.

(** X16.  The lists of two different users never share a task, whatever
    the queries: no query parameter makes [GET /tasks] show a task of
    somebody else. *)
Theorem lists_of_users_are_disjoint query1 query2 user1 user2 db tasks1 tasks2 :
  payload_id user1 <> payload_id user2 ->
  get_tasks query1 user1 db = (respond 200 (JTasks tasks1), db) ->
  get_tasks query2 user2 db = (respond 200 (JTasks tasks2), db) ->
  forall t, t ∈ tasks1 -> t ∉ tasks2.
Proof.
  intros Hne H1 H2 t Ht1 Ht2.
  apply (get_tasks_elem _ _ _ _ _ H1) in Ht1 as (i & _ & Ho1 & _).
  apply (get_tasks_elem _ _ _ _ _ H2) in Ht2 as (j & _ & Ho2 & _).
  congruence.
Qed.

(** X17.  After a DELETE that succeeded, the caller's list, for every
    query, is the list as it was without the deleted task: the task is
    gone from it and every other task that was listed still is. *)
Theorem deleted_task_is_not_listed id i user db db' query before after :
  ids_consistent db ->
  ObjectIds.cast id = Some i ->
  delete_task id user db
  = (respond 200 (JMessage "Task deleted successfully"), db') ->
  get_tasks query user db = (respond 200 (JTasks before), db) ->
  get_tasks query user db' = (respond 200 (JTasks after), db') ->
  forall t, t ∈ after <-> t ∈ before /\ task_id t <> i.
Proof.
  intros Hids Hc Hdel Hb Ha t.
  assert (E : db' = without i db).
  { unfold delete_task, TaskModel.findOneAndDelete in Hdel. rewrite Hc in Hdel.
    destruct (Tasks db !! i) as [t0|]; [|done].
    case_decide; [|done]. by injection Hdel as <-. }
  subst db'.
  rewrite (get_tasks_elem _ _ _ _ _ Ha), (get_tasks_elem _ _ _ _ _ Hb).
  unfold without. simpl. split.
  - intros (j & Hj & Hsel). rewrite lookup_delete in Hj.
    case_decide as Eij; [done|]. split; [eauto|].
    rewrite (Hids _ _ Hj). congruence.
  - intros [(j & Hj & Hsel) Hne]. exists j. split; [|done].
    rewrite lookup_delete_ne; [done|]. intros ->.
    by rewrite (Hids _ _ Hj) in Hne.
Qed.

(** ** Status codes *)

Lemma protected_status P handler auth db :
  (forall user, res_status (handler user db).1 ∈ status_codes) ->
  res_status (protected P handler auth db).1 ∈ status_codes.
Proof.
  intros H. unfold protected, authenticateToken, status_codes.
  destruct (JS.truthy (token_of auth)) as [token|]; [|simpl; repeat constructor].
  destruct (jwt_verify P token) as [v| | |]; try solve [simpl; repeat constructor].
  destruct (UserModel.findById (payload_id v) db); [apply H|simpl; repeat constructor].
Qed.

(** X18.  Every answer that the guard [authenticateToken] or a route
    handler of [index.js] writes has one of the status codes 200, 201, 400,
    401, 404, 500: in particular a request for somebody else's task is
    never answered 403 by them, and a thrown error never leaves a handler
    other than as its 500.  (The answers that Express and the body parser
    give before a handler runs, such as 413 for a body that is too large,
    are not written by these functions and are not covered.) *)
Theorem handle_status_codes P req db :
  res_status (handle P req db).1 ∈ status_codes.
Proof.
  destruct req as [b|b|a b|a q|a id|a id b|a id|a id b]; simpl;
    try apply protected_status; try intros user; unfold status_codes.
  - unfold post_auth_register.
    destruct (JS.truthy (b !! "name")); [|simpl; repeat constructor].
    destruct (JS.truthy (b !! "email")); [|simpl; repeat constructor].
    destruct (JS.truthy (b !! "password")); [|simpl; repeat constructor].
    destruct (UserModel.findOne_email _ db); [simpl; repeat constructor|].
    destruct (UserModel.save P _ db) as [[u db']|e]; simpl; repeat constructor.
  - unfold post_auth_login.
    destruct (JS.truthy (b !! "email")); [|simpl; repeat constructor].
    destruct (JS.truthy (b !! "password")); [|simpl; repeat constructor].
    destruct (UserModel.findOne_email _ db); [|simpl; repeat constructor].
    destruct (UserModel.comparePassword P _ _); simpl; repeat constructor.
  - unfold post_tasks.
    destruct (JS.truthy (b !! "title")); [|simpl; repeat constructor].
    destruct (JS.truthy (b !! "description")); [|simpl; repeat constructor].
    destruct (JS.truthy (b !! "dueDate")); [|simpl; repeat constructor].
    destruct (TaskModel.save_new P _ _ _ _ _ _ db) as [[t db']|e];
      simpl; repeat constructor.
  - simpl. repeat constructor.
  - unfold get_task.
    destruct (TaskModel.findOne id (payload_id user) db) as [[t|]|e];
      simpl; repeat constructor.
  - unfold put_task.
    destruct (TaskModel.findOneAndUpdate P id (payload_id user) _ db)
      as [[[t|] db']|e]; simpl; repeat constructor.
  - unfold delete_task.
    destruct (TaskModel.findOneAndDelete id (payload_id user) db)
      as [[[t|] db']|e]; simpl; repeat constructor.
  - unfold post_task_reminder.
    destruct (JS.truthy (b !! "reminderDate")); [|simpl; repeat constructor].
    destruct (TaskModel.findOne id (payload_id user) db) as [[t|]|e];
      try solve [simpl; repeat constructor].
    destruct (TaskModel.save_reminder t _ db) as [[t' db']|e];
      simpl; repeat constructor.
Qed.

(** ** The user model on its own *)

(** X19.  The normalisation of emails ([trim], [lowercase]) is idempotent
    and absorbs a lower-casing and a trimming done beforehand, so two
    spellings of an address that differ by case or by surrounding white
    space are one email for the registration test and for the login. *)
Theorem email_normalisation e :
  UserModel.set_email (UserModel.set_email e) = UserModel.set_email e
  /\ UserModel.set_email (JS.toLowerCase e) = UserModel.set_email e
  /\ UserModel.set_email (JS.trim e) = UserModel.set_email e
  /\ JS.toLowerCase (UserModel.set_email e) = UserModel.set_email e
  /\ JS.trim (UserModel.set_email e) = UserModel.set_email e.
Proof.
  unfold UserModel.set_email. split_and!.
  - by rewrite toLowerCase_trim, trim_idem, toLowerCase_idem.
  - by rewrite toLowerCase_idem.
  - by rewrite toLowerCase_trim, trim_idem.
  - by rewrite toLowerCase_trim, toLowerCase_idem.
  - apply trim_idem.
Qed.

(** X20.  The unique index on [email] backs the handler's test: saving a
    user document whose email is the email of a stored user throws,
    whatever the rest of the document is, so no save, however late it
    lands, stores a second user with an email that is taken. *)
Theorem save_never_duplicates_email P u db j v :
  Users db !! j = Some v ->
  user_email v = user_email u ->
  exists e, UserModel.save P u db = Throw e.
Proof.
  intros Hv He.
  destruct (UserModel.save P u db) as [[u' db']|e] eqn:E; [|eauto].
  apply save_Ok in E as (_ & _ & _ & Hfree & _).
  by destruct (Hfree j v Hv).
Qed.

(** ** Values the task schema rejects *)

(** X21.  A create-task request that has its three required fields but
    carries a [dueDate] that is [Invalid Date], or a [status] or a
    [priority] outside the schema's lists, is rejected by the model when
    the task is saved: the answer is 500 "Error creating task", not 400,
    and nothing is stored. *)
Theorem create_invalid_is_server_error P body user db title description dueDate :
  JS.truthy (body !! "title") = Some title ->
  JS.truthy (body !! "description") = Some description ->
  JS.truthy (body !! "dueDate") = Some dueDate ->
  Date_parse P dueDate = None
  \/ (exists v, JS.truthy (body !! "status") = Some v
                 /\ v ∉ TaskModel.statuses)
  \/ (exists v, JS.truthy (body !! "priority") = Some v
                 /\ v ∉ TaskModel.priorities) ->
  post_tasks P body user db
  = (respond 500 (JError "Error creating task"), db).
Proof.
  intros Ht Hd Hdue Hbad. unfold post_tasks. rewrite Ht, Hd, Hdue.
  unfold TaskModel.save_new.
  destruct (Date_parse P dueDate) as [due|] eqn:Edate; [|done].
  destruct Hbad as [Hbad|[(v & Hv & Hnot)|(v & Hv & Hnot)]]; [done| |].
  - rewrite (or_else_truthy _ _ _ Hv).
    unfold TaskModel.valid_status at 1. rewrite bool_decide_eq_false_2 by done.
    by rewrite andb_false_r.
  - rewrite (or_else_truthy _ _ _ Hv).
    unfold TaskModel.valid_priority at 1.
    rewrite bool_decide_eq_false_2 by done. by rewrite andb_false_r.
Qed.

(** X22.  An update is applied as a whole or not at all.  When one of the
    provided fields is rejected (an empty [title] or [description], a
    [status] or [priority] outside the schema's lists, a [dueDate] that
    does not cast to a date), the answer is 500 "Error updating task" and
    the database is unchanged: the valid fields of the same body are not
    applied, and this is so for every id and every caller. *)
Theorem invalid_update_changes_nothing P id body user db :
  body !! "title" = Some ""
  \/ body !! "description" = Some ""
  \/ (exists v, body !! "status" = Some v /\ v ∉ TaskModel.statuses)
  \/ (exists v, body !! "priority" = Some v /\ v ∉ TaskModel.priorities)
  \/ (exists v, body !! "dueDate" = Some v /\ SchemaDate_cast P v = None) ->
  put_task P id body user db
  = (respond 500 (JError "Error updating task"), db).
Proof.
  intros Hbad. unfold put_task, TaskModel.findOneAndUpdate.
  destruct (ObjectIds.cast id) as [i|]; [|done].
  destruct (TaskModel.castUpdate P (update_of body)) as [cu|e] eqn:Hcu;
    [|done].
  destruct (castUpdate_fields _ _ _ Hcu) as (H1 & H2 & H3 & H4 & _ & H6).
  simpl in H1, H2, H3, H4, H6.
  assert (Hv : TaskModel.validateUpdate cu = false).
  { unfold TaskModel.validateUpdate. rewrite H1, H2, H3, H4.
    destruct Hbad as [E|[E|[(v & E & Hn)|[(v & E & Hn)|(v & E & Hn)]]]].
    - by rewrite E.
    - rewrite E. simpl. by rewrite andb_false_r.
    - rewrite E. simpl. unfold TaskModel.valid_status.
      rewrite bool_decide_eq_false_2 by done. by rewrite !andb_false_r.
    - rewrite E. simpl. unfold TaskModel.valid_priority.
      rewrite bool_decide_eq_false_2 by done. by rewrite !andb_false_r.
    - exfalso. unfold TaskModel.castUpdate in Hcu. simpl in Hcu.
      by rewrite E, Hn in Hcu. }
  by rewrite Hv.
Qed.

(** * The further properties on the demo platform *)

Lemma demo_ids_consistent : ids_consistent Demo.db.
Proof.
  intros i t. unfold Demo.db. simpl.
  repeat (rewrite lookup_insert;
          case_decide; [intros [= <-]; subst i; reflexivity|]).
  rewrite lookup_empty. discriminate.
Defined.

Lemma login_rejects_alike_witness :
  post_auth_login Demo.platform
    (<["email" := "ann@x.com"]> {[ "password" := "wrong" ]}) Demo.db
  = (respond 401 (JError "Invalid credentials"), Demo.db)
  /\ post_auth_login Demo.platform
       (<["email" := "zoe@x.com"]> {[ "password" := "secret1" ]}) Demo.db
     = (respond 401 (JError "Invalid credentials"), Demo.db)
  /\ post_auth_login Demo.platform {[ "email" := "ann@x.com" ]} Demo.db
     = (respond 400 (JMessage "Please provide email and password"), Demo.db).
Proof.
  split_and!.
  3: { apply (proj1 (login_rejects_alike Demo.platform
                       {[ "email" := "ann@x.com" ]} Demo.db)).
       right. reflexivity. }
  - apply (proj1 (proj2 (login_rejects_alike Demo.platform
                    (<["email" := "ann@x.com"]> {[ "password" := "wrong" ]})
                    Demo.db)) "ann@x.com" "wrong"); [reflexivity|reflexivity|].
    assert (Hall : map_Forall
                     (λ (_ : N) (u : User),
                        user_email u = "ann@x.com" ->
                        bcrypt_compare Demo.platform "wrong" (user_password u)
                        = false)
                     (Users Demo.db)).
    { apply (@bool_decide_unpack _ (map_Forall_dec _ _)). vm_compute. exact I. }
    intros i u Hu. exact (Hall i u Hu).
  - apply (proj1 (proj2 (login_rejects_alike Demo.platform
                    (<["email" := "zoe@x.com"]> {[ "password" := "secret1" ]})
                    Demo.db)) "zoe@x.com" "secret1"); [reflexivity|reflexivity|].
    assert (Hall : map_Forall
                     (λ (_ : N) (u : User),
                        user_email u = "zoe@x.com" ->
                        bcrypt_compare Demo.platform "secret1" (user_password u)
                        = false)
                     (Users Demo.db)).
    { apply (@bool_decide_unpack _ (map_Forall_dec _ _)). vm_compute. exact I. }
    intros i u Hu. exact (Hall i u Hu).
Defined.

Lemma register_then_login_witness :
  exists uid db1,
    post_auth_register Demo.platform
      (<["name" := " Ann "]>
         (<["email" := "Ann@X.com"]> {[ "password" := "secret1" ]}))
      {| Users := ∅; Tasks := ∅ |}
    = (respond 201
         (JRegistered "User registered successfully" uid "Ann" "ann@x.com"
            (jwt_sign Demo.platform uid)), db1)
    /\ post_auth_login Demo.platform
         (<["email" := " ANN@x.com "]> {[ "password" := "secret1" ]}) db1
       = (respond 200 (JLogin "Login successful" (jwt_sign Demo.platform uid)),
          db1).
Proof.
  apply (register_then_login Demo.platform Demo.platform
           (<["name" := " Ann "]>
              (<["email" := "Ann@X.com"]> {[ "password" := "secret1" ]}))
           (<["email" := " ANN@x.com "]> {[ "password" := "secret1" ]})
           {| Users := ∅; Tasks := ∅ |}
           " Ann " "Ann@X.com" "secret1" " ANN@x.com ");
    try reflexivity; try discriminate; try (simpl; lia).
Defined.

Lemma registration_token_authenticates_witness :
  exists uid name' email' token db1,
    post_auth_register (Demo.platform_drawing Demo.ann)
      (<["name" := "Ann"]>
         (<["email" := "ann@x.com"]> {[ "password" := "secret1" ]}))
      {| Users := ∅; Tasks := ∅ |}
    = (respond 201
         (JRegistered "User registered successfully" uid name' email' token),
       db1)
    /\ authenticateToken Demo.platform (Some ("Bearer " ++ token)) db1
       = inr (mkPayload Demo.ann 0 86400).
Proof.
  destruct (registration_token_authenticates
              (Demo.platform_drawing Demo.ann) Demo.platform
              (<["name" := "Ann"]>
                 (<["email" := "ann@x.com"]> {[ "password" := "secret1" ]}))
              {| Users := ∅; Tasks := ∅ |}
              "Ann" "ann@x.com" "secret1" (mkPayload Demo.ann 0 86400))
    as (uid & name' & email' & token & db1 & Hreg & _ & Hauth & _);
    try reflexivity; try discriminate; try (simpl; lia).
  exists uid, name', email', token, db1. split; [exact Hreg|exact Hauth].
Defined.

Lemma register_incomplete_witness :
  post_auth_register Demo.platform
    (<["name" := "Cat"]> {[ "password" := "secret3" ]}) Demo.db
  = (respond 400 (JMessage "Please provide name, email, and password"),
     Demo.db)
  /\ post_auth_register Demo.platform
       (<["name" := "   "]>
          (<["email" := "cat@x.com"]> {[ "password" := "secret3" ]}))
       Demo.db
     = (respond 500 (JError "Server error during registration"), Demo.db).
Proof.
  split.
  - apply (proj1 (register_incomplete Demo.platform
                    (<["name" := "Cat"]> {[ "password" := "secret3" ]})
                    Demo.db)).
    right. left. reflexivity.
  - apply (proj2 (register_incomplete Demo.platform
                    (<["name" := "   "]>
                       (<["email" := "cat@x.com"]>
                          {[ "password" := "secret3" ]}))
                    Demo.db) "   " "cat@x.com" "secret3");
      [reflexivity|reflexivity|reflexivity| |left; reflexivity].
    assert (Hall : map_Forall
                     (λ (_ : N) (v : User), user_email v <> "cat@x.com")
                     (Users Demo.db)).
    { apply (@bool_decide_unpack _ (map_Forall_dec _ _)). vm_compute. exact I. }
    intros i u Hu. exact (Hall i u Hu).
Defined.

Lemma requests_leave_other_owners_tasks_witness :
  Tasks (handle Demo.platform
           (DeleteTask (Some "Bearer token-bob") Demo.id1) Demo.db).2 !! 1%N
  = Some Demo.task1
  /\ Tasks (handle Demo.platform
              (PostTaskReminder (Some "Bearer token-bob") Demo.id1
                 {[ "reminderDate" := "2025-06-30" ]}) Demo.db).2 !! 1%N
     = Some Demo.task1.
Proof.
  split.
  - apply (requests_leave_other_owners_tasks Demo.platform
             (DeleteTask (Some "Bearer token-bob") Demo.id1) Demo.db 1%N
             Demo.task1 demo_ids_consistent); [reflexivity|].
    intros auth user [= <-] Hauth. vm_compute in Hauth.
    injection Hauth as <-. discriminate.
  - apply (requests_leave_other_owners_tasks Demo.platform
             (PostTaskReminder (Some "Bearer token-bob") Demo.id1
                {[ "reminderDate" := "2025-06-30" ]}) Demo.db 1%N
             Demo.task1 demo_ids_consistent); [reflexivity|].
    intros auth user [= <-] Hauth. vm_compute in Hauth.
    injection Hauth as <-. discriminate.
Defined.

Lemma users_are_only_added_witness :
  Users (handle Demo.platform
           (PostAuthRegister
              (<["name" := "Cat"]>
                 (<["email" := "cat@x.com"]> {[ "password" := "secret3" ]})))
           Demo.db).2 !! Demo.ann
  = Some Demo.user_ann
  /\ authenticateToken Demo.platform (Some "Bearer token-ann")
       (handle Demo.platform
          (DeleteTask (Some "Bearer token-bob") Demo.id3) Demo.db).2
     = inr (mkPayload Demo.ann 0 86400).
Proof.
  split.
  - apply (proj1 (users_are_only_added Demo.platform
                    (PostAuthRegister
                       (<["name" := "Cat"]>
                          (<["email" := "cat@x.com"]>
                             {[ "password" := "secret3" ]})))
                    Demo.db)).
    reflexivity.
  - apply (proj2 (users_are_only_added Demo.platform
                    (DeleteTask (Some "Bearer token-bob") Demo.id3) Demo.db)).
    reflexivity.
Defined.

Lemma reachable_ids_and_owners_witness :
  ids_consistent
    (serve Demo.session {| Users := ∅; Tasks := ∅ |}).2
  /\ user_ids_consistent
       (serve Demo.session {| Users := ∅; Tasks := ∅ |}).2
  /\ owners_exist
       (serve Demo.session {| Users := ∅; Tasks := ∅ |}).2.
Proof.
  apply reachable_ids_and_owners.
  apply reachable_serve; [|apply reachable_empty].
  unfold Demo.session. repeat constructor.
Defined.

Lemma reachable_users_validated_witness :
  exists u,
    Users (serve Demo.session {| Users := ∅; Tasks := ∅ |}).2
      !! Demo.bob = Some u
    /\ user_email u = "bob@x.com"
    /\ stored_user_ok Demo.hashes u.
Proof.
  assert (Hsession : Forall (λ pr : Platform * Request,
                               hashing Demo.hashes pr.1) Demo.session).
  { unfold Demo.session. repeat constructor. }
  eexists. split; [vm_compute; reflexivity|]. split; [reflexivity|].
  apply (reachable_users_validated Demo.hashes
           (serve Demo.session {| Users := ∅; Tasks := ∅ |}).2
           (reachable_serve _ _ _ Hsession (reachable_empty _)) Demo.bob).
  vm_compute. reflexivity.
Defined.

(** A password stored as it was sent is not a hash in the sense of
    [Demo.hashes]: the invariant above says something. *)
Example plaintext_password_is_not_ok :
  ~ stored_user_ok Demo.hashes
      (mkUser Demo.ann "Ann" "ann@x.com" "secret1"
         (Some 1700000000000) (Some 1700000000000)).
Proof.
  intros (_ & _ & _ & _ & (password & Hh & _) & _).
  unfold Demo.hashes in Hh. simpl in Hh. discriminate Hh.
Qed.

Lemma reminder_rejections_witness :
  post_task_reminder Demo.platform "abc" ∅ (mkPayload Demo.ann 0 86400) Demo.db
  = (respond 400 (JError "Missing reminder date"), Demo.db)
  /\ post_task_reminder Demo.platform Demo.id3
       {[ "reminderDate" := "soon" ]} (mkPayload Demo.ann 0 86400) Demo.db
     = (respond 404 (JError "Task not found"), Demo.db)
  /\ post_task_reminder Demo.platform Demo.id1
       {[ "reminderDate" := "soon" ]} (mkPayload Demo.ann 0 86400) Demo.db
     = (respond 500 (JError "Error setting reminder"), Demo.db).
Proof.
  split_and!.
  - apply (proj1 (reminder_rejections Demo.platform "abc" ∅
                    (mkPayload Demo.ann 0 86400) Demo.db)).
    reflexivity.
  - destruct (proj2 (reminder_rejections Demo.platform Demo.id3
                       {[ "reminderDate" := "soon" ]}
                       (mkPayload Demo.ann 0 86400) Demo.db) "soon" 3%N)
      as [Hnf _]; [reflexivity|reflexivity|].
    apply Hnf. intros t Ht. vm_compute in Ht. injection Ht as <-. discriminate.
  - destruct (proj2 (reminder_rejections Demo.platform Demo.id1
                       {[ "reminderDate" := "soon" ]}
                       (mkPayload Demo.ann 0 86400) Demo.db) "soon" 1%N)
      as [_ Hinv]; [reflexivity|reflexivity|].
    apply (Hinv Demo.task1); reflexivity.
Defined.

Lemma reminder_sets_only_reminderDate_witness :
  exists t' db',
    post_task_reminder Demo.platform Demo.id1
      {[ "reminderDate" := "2025-06-30" ]} (mkPayload Demo.ann 0 86400) Demo.db
    = (respond 200 (JReminder "Reminder set successfully" t'), db')
    /\ task_reminderDate t' = Some 1751241600000
    /\ task_title t' = "Write spec"
    /\ Tasks db' !! 2%N = Some Demo.task2.
Proof.
  destruct (reminder_sets_only_reminderDate Demo.platform Demo.id1 1%N
              {[ "reminderDate" := "2025-06-30" ]} (mkPayload Demo.ann 0 86400)
              Demo.db Demo.task1 "2025-06-30" 1751241600000)
    as (t' & db' & Hres & Hrem & _ & Htitle & _ & _ & _ & _ & _ & _ & Hother & _);
    try reflexivity.
  exists t', db'. split_and!; [exact Hres|exact Hrem|exact Htitle|].
  rewrite (Hother 2%N); [reflexivity|discriminate].
Defined.

Lemma malformed_id_is_server_error_witness :
  get_task "abc" (mkPayload Demo.ann 0 86400) Demo.db
  = (respond 500 (JError "Error fetching task"), Demo.db)
  /\ delete_task "abc" (mkPayload Demo.ann 0 86400) Demo.db
     = (respond 500 (JError "Error deleting task"), Demo.db).
Proof.
  destruct (malformed_id_is_server_error Demo.platform "abc"
              (mkPayload Demo.ann 0 86400) Demo.db)
    as (Hget & _ & Hdel & _); [reflexivity|].
  split; [exact Hget|exact Hdel].
Defined.

Lemma empty_update_changes_nothing_witness :
  put_task Demo.platform Demo.id1 {[ "reminderDate" := "2025-06-30" ]}
    (mkPayload Demo.ann 0 86400) Demo.db
  = (respond 200 (JTask Demo.task1), Demo.db).
Proof.
  apply (empty_update_changes_nothing Demo.platform Demo.id1 1%N);
    reflexivity.
Defined.

Lemma created_task_is_readable_witness :
  exists t db',
    post_tasks Demo.platform
      (<["title" := "Write spec"]>
         (<["description" := "draft v1"]> {[ "dueDate" := "2025-01-01" ]}))
      (mkPayload Demo.bob 0 86400) Demo.db
    = (respond 201 (JTask t), db')
    /\ get_task "000000000000000000000004" (mkPayload Demo.bob 0 86400) db'
       = (respond 200 (JTask t), db')
    /\ exists tasks,
        get_tasks ∅ (mkPayload Demo.bob 0 86400) db'
        = (respond 200 (JTasks tasks), db')
        /\ t ∈ tasks.
Proof.
  eexists _, _. split; [vm_compute; reflexivity|].
  match goal with
  | |- get_task _ _ ?d = (respond 200 (JTask ?t), _) /\ _ =>
      destruct (created_task_is_readable Demo.platform
                  (<["title" := "Write spec"]>
                     (<["description" := "draft v1"]>
                        {[ "dueDate" := "2025-01-01" ]}))
                  (mkPayload Demo.bob 0 86400) Demo.db t d)
        as (Hget & Hlist & Hsel & _); [vm_compute; reflexivity|]
  end.
  split.
  - apply Hget. reflexivity.
  - apply Hlist. exact Hsel.
Defined.

Lemma lists_of_users_are_disjoint_witness :
  exists tasks_ann tasks_bob,
    get_tasks ∅ (mkPayload Demo.ann 0 86400) Demo.db
    = (respond 200 (JTasks tasks_ann), Demo.db)
    /\ get_tasks (<["status" := "pending"]> {[ "sort" := "desc" ]})
         (mkPayload Demo.bob 0 86400) Demo.db
       = (respond 200 (JTasks tasks_bob), Demo.db)
    /\ (Demo.task1 ∈ tasks_ann)
    /\ (Demo.task1 ∉ tasks_bob).
Proof.
  destruct (get_tasks_total ∅ (mkPayload Demo.ann 0 86400) Demo.db)
    as [tasks_ann Ha].
  destruct (get_tasks_total (<["status" := "pending"]> {[ "sort" := "desc" ]})
              (mkPayload Demo.bob 0 86400) Demo.db) as [tasks_bob Hb].
  exists tasks_ann, tasks_bob.
  assert (Hin : Demo.task1 ∈ tasks_ann).
  { apply (get_tasks_elem _ _ _ _ _ Ha). exists 1%N.
    split; [reflexivity|]. unfold selected. split_and!; [reflexivity| |];
      intros v Hv; vm_compute in Hv; discriminate Hv. }
  split_and!; [exact Ha|exact Hb|exact Hin|].
  apply (lists_of_users_are_disjoint ∅
           (<["status" := "pending"]> {[ "sort" := "desc" ]})
           (mkPayload Demo.ann 0 86400) (mkPayload Demo.bob 0 86400) Demo.db
           tasks_ann tasks_bob); [discriminate|exact Ha|exact Hb|exact Hin].
Defined.

Lemma deleted_task_is_not_listed_witness :
  exists db' after,
    delete_task Demo.id1 (mkPayload Demo.ann 0 86400) Demo.db
    = (respond 200 (JMessage "Task deleted successfully"), db')
    /\ get_tasks ∅ (mkPayload Demo.ann 0 86400) db'
       = (respond 200 (JTasks after), db')
    /\ (Demo.task1 ∉ after)
    /\ (Demo.task2 ∈ after).
Proof.
  destruct (get_tasks_total ∅ (mkPayload Demo.ann 0 86400) Demo.db)
    as [before Hb].
  destruct (get_tasks_total ∅ (mkPayload Demo.ann 0 86400)
              (without 1%N Demo.db)) as [after Ha].
  exists (without 1%N Demo.db), after.
  assert (Hiff : forall t, t ∈ after <-> t ∈ before /\ task_id t <> 1%N).
  { apply (deleted_task_is_not_listed Demo.id1 1%N
             (mkPayload Demo.ann 0 86400) Demo.db (without 1%N Demo.db) ∅);
      [exact demo_ids_consistent|reflexivity|reflexivity|exact Hb|exact Ha]. }
  split_and!; [reflexivity|exact Ha| |].
  - intros Hin. apply Hiff in Hin as [_ Hne]. by apply Hne.
  - apply Hiff. split; [|discriminate].
    apply (get_tasks_elem _ _ _ _ _ Hb). exists 2%N.
    split; [reflexivity|]. unfold selected. split_and!; [reflexivity| |];
      intros v Hv; vm_compute in Hv; discriminate Hv.
Defined.

Lemma save_never_duplicates_email_witness :
  exists e,
    UserModel.save Demo.platform
      (UserModel.new Demo.platform "Ann B" " ANN@x.com" "secret9") Demo.db
    = Throw e.
Proof.
  apply (save_never_duplicates_email Demo.platform _ Demo.db Demo.ann
           Demo.user_ann); reflexivity.
Defined.

Lemma create_invalid_is_server_error_witness :
  post_tasks Demo.platform
    (<["title" := "Write spec"]>
       (<["description" := "draft v1"]>
          (<["dueDate" := "2025-01-01"]> {[ "status" := "done" ]})))
    (mkPayload Demo.ann 0 86400) Demo.db
  = (respond 500 (JError "Error creating task"), Demo.db).
Proof.
  apply (create_invalid_is_server_error Demo.platform _ _ Demo.db
           "Write spec" "draft v1" "2025-01-01");
    [reflexivity|reflexivity|reflexivity|].
  right. left. exists "done". split; [reflexivity|].
  apply (@bool_decide_unpack _ (not_dec _)). vm_compute. exact I.
Defined.

Lemma invalid_update_changes_nothing_witness :
  put_task Demo.platform Demo.id1
    (<["title" := "New title"]> {[ "dueDate" := "tomorrow" ]})
    (mkPayload Demo.ann 0 86400) Demo.db
  = (respond 500 (JError "Error updating task"), Demo.db).
Proof.
  apply (invalid_update_changes_nothing Demo.platform Demo.id1).
  right; right; right; right. exists "tomorrow". split; reflexivity.
Defined.
